(** * YenAi-Bot: the signal-derivation pipeline of [server.js]

    A shallow embedding of the class [AdvancedCryptoBot] and of the
    watchlist routes of [server.js], with the properties of the pipeline
    (indicator snapshot, the four strategies, the sentiment aggregator,
    the support/resistance levels and the orchestrator [analyzeCoin]).

    Conventions of the embedding.
    - A JavaScript number is a [jsnum]: a rational (the value of a
      finite double), negative zero, the two infinities or NaN.
      Comparisons are those of the values.  The arithmetic whose value
      the program reads (the volume strategy) is binary64 arithmetic: the
      exact result rounded to nearest, ties to even, with overflow to
      infinity, gradual underflow and the sign of zero ([JS.add64],
      [JS.sub64], [JS.mul64], [JS.div64], written [+ - * /] in
      [f64_scope]).  A comparison function of a sort returns a
      difference that is read for its sign only; it is written with the
      exact difference ([-] in [js_scope]), whose sign is the sign of the
      binary64 difference of two doubles ([sub64_sign]), so that the
      sorted array is the same ([sort_binary64_difference]).
    - A [Date] made from a time value is a [date]: the time in whole
      milliseconds, or Invalid Date beyond 8.64e15 ms and for a time that
      is not finite.
    - Integer counters (the sentiment score) are [Z]: an array holds fewer
      than 2^32 elements and each adds at most 3 in absolute value, so the
      score stays far below 2^53 and the additions are exact.
    - A call that can throw returns a [result]; [null] and [undefined] are
      [None].
    - The library [technicalindicators] and the exchange client of [ccxt]
      are not part of the repository: they are parameters ([TILib],
      [Exchange]).
    - A template literal is kept symbolic ([description]): its text is the
      concatenation of its parts, a number part standing for
      [x.toFixed(2)].
    - The tickers of the exchange ([Tickers]) are the entries of the
      object [fetchTickers] answers with, in the order of
      [Object.entries]; a ticker field is a [jsval].
    - A route is modelled for one request handled on its own; the clock of
      the watchlist analysis is the sequence of its [new Date()] values.
    - [getFearGreedIndex], the static route and the routes that only
      forward a method's answer are not modelled. *)

From Stdlib Require Import String Ascii List Bool ZArith QArith Qabs Lia Lqa.
From Stdlib Require Import Permutation Sorted.
Import ListNotations.

Local Open Scope string_scope.
Local Open Scope Z_scope.

(** ** JavaScript numbers *)

Module JS.

Inductive jsnum : Type :=
| Fin (q : Q)
| NZero
| PInf
| NInf
| NaN.

Definition Qltb (a b : Q) : bool :=
  match Qcompare a b with Lt => true | _ => false end.

Definition Qis0 (a : Q) : bool := Z.eqb (Qnum a) 0.

Definition zero : jsnum := Fin 0.
Definition ofZ (z : Z) : jsnum := Fin (inject_Z z).

(** The value of a finite number. *)
Definition value (a : jsnum) : Q :=
  match a with Fin x => x | _ => 0%Q end.


(** [a < b]; every comparison with NaN is false, and the two zeros
    compare as equal. *)
Definition lt (a b : jsnum) : bool :=
  match a, b with
  | NaN, _ | _, NaN => false
  | Fin x, Fin y => Qltb x y
  | Fin x, NZero => Qltb x 0
  | NZero, Fin y => Qltb 0 y
  | NZero, NZero => false
  | NInf, NInf => false
  | NInf, _ => true
  | Fin _, PInf | NZero, PInf => true
  | Fin _, NInf | NZero, NInf => false
  | PInf, _ => false
  end.

(** [a > b] *)
Definition gt (a b : jsnum) : bool := lt b a.

(** [- a]: the sign changes, also the sign of a zero. *)
Definition neg (a : jsnum) : jsnum :=
  match a with
  | Fin x => if Qis0 x then NZero else Fin (Qopp x)
  | NZero => Fin 0
  | PInf => NInf
  | NInf => PInf
  | NaN => NaN
  end.

(** The exact sum and the exact difference. *)
Definition add (a b : jsnum) : jsnum :=
  match a, b with
  | NaN, _ | _, NaN => NaN
  | PInf, NInf | NInf, PInf => NaN
  | PInf, _ | _, PInf => PInf
  | NInf, _ | _, NInf => NInf
  | _, _ => Fin (Qplus (value a) (value b))
  end.

Definition sub (a b : jsnum) : jsnum := add a (neg b).

(** *** binary64 arithmetic *)

(** The sign bit of a number that is not NaN. *)
Definition negative (a : jsnum) : bool :=
  match a with
  | Fin x => Qltb x 0
  | NZero | NInf => true
  | PInf | NaN => false
  end.

Definition zero_of (negative : bool) : jsnum :=
  if negative then NZero else Fin 0.

Definition inf_of (negative : bool) : jsnum :=
  if negative then NInf else PInf.

Definition is_zero (a : jsnum) : bool :=
  match a with Fin x => Qis0 x | NZero => true | _ => false end.

Definition is_inf (a : jsnum) : bool :=
  match a with PInf | NInf => true | _ => false end.

Definition is_nan (a : jsnum) : bool :=
  match a with NaN => true | _ => false end.

(** [floor (log2 (n / d))] *)
Definition log2_floor (n d : positive) : Z :=
  let e := Z.log2 (Zpos n) - Z.log2 (Zpos d) in
  if 0 <=? e then
    if Zpos d * 2 ^ e <=? Zpos n then e else e - 1
  else
    if Zpos d <=? Zpos n * 2 ^ (- e) then e else e - 1.

(** The integer nearest to [n / d], the even one of two. *)
Definition nearest_even (n d : Z) : Z :=
  let q := n / d in
  match 2 * (n mod d) ?= d with
  | Lt => q
  | Gt => q + 1
  | Eq => if Z.even q then q else q + 1
  end.

(** The double nearest to [n / d] with the given sign, ties to even: a
    multiple [m * 2 ^ k] with [m] of 53 bits at most and [k] from -1074,
    infinity from [2 ^ 1024], a zero of the sign when [m] is 0. *)
Definition round_magnitude (negative : bool) (n d : positive) : jsnum :=
  let e := log2_floor n d in
  let k := Z.max (e - 52) (-1074) in
  let m := if 0 <=? k then nearest_even (Zpos n) (Zpos d * 2 ^ k)
           else nearest_even (Zpos n * 2 ^ (- k)) (Zpos d) in
  if m =? 0 then zero_of negative
  else if 1024 <=? Z.log2 m + k then inf_of negative
  else
    let s := if negative then - m else m in
    if 0 <=? k then Fin (inject_Z (s * 2 ^ k))
    else Fin (Qred (s # Z.to_pos (2 ^ (- k)))).

(** Rounding of a rational to binary64. *)
Definition round64 (q : Q) : jsnum :=
  match Qnum q with
  | Z0 => Fin 0
  | Zpos n => round_magnitude false n (Qden q)
  | Zneg n => round_magnitude true n (Qden q)
  end.

(** [a + b]: an exact sum of 0 is [-0] when both terms are negative zeros
    and [+0] otherwise. *)
Definition add64 (a b : jsnum) : jsnum :=
  if is_nan a || is_nan b then NaN
  else if is_inf a then
    if is_inf b && negb (Bool.eqb (negative a) (negative b)) then NaN else a
  else if is_inf b then b
  else
    let s := Qplus (value a) (value b) in
    if Qis0 s then zero_of (negative a && negative b) else round64 s.

(** [a - b] *)
Definition sub64 (a b : jsnum) : jsnum := add64 a (neg b).

(** [a * b] *)
Definition mul64 (a b : jsnum) : jsnum :=
  let negative := xorb (negative a) (negative b) in
  if is_nan a || is_nan b then NaN
  else if is_inf a || is_inf b then
    if is_zero a || is_zero b then NaN else inf_of negative
  else if is_zero a || is_zero b then zero_of negative
  else round64 (Qmult (value a) (value b)).

(** [a / b] *)
Definition div64 (a b : jsnum) : jsnum :=
  let negative := xorb (negative a) (negative b) in
  if is_nan a || is_nan b then NaN
  else if is_inf a then if is_inf b then NaN else inf_of negative
  else if is_inf b then zero_of negative
  else if is_zero b then if is_zero a then NaN else inf_of negative
  else if is_zero a then zero_of negative
  else round64 (Qdiv (value a) (value b)).

(** Truthiness of a number: the zeros and [NaN] are falsy. *)
Definition truthy_num (a : jsnum) : bool :=
  match a with
  | Fin x => negb (Qis0 x)
  | NZero | NaN => false
  | _ => true
  end.

(** [a[i]] is [undefined] out of range. *)
Definition last_elem {A : Type} (l : list A) : option A :=
  nth_error l (length l - 1)%nat.

(** [a.slice(-n)]: the last [n] elements, the whole array when it is
    shorter. *)
Definition slice_last {A : Type} (n : nat) (l : list A) : list A :=
  skipn (length l - n)%nat l.

(** [s.includes(t)] on strings. *)
Fixpoint includes (s t : string) : bool :=
  orb (String.prefix t s)
      (match s with
       | EmptyString => false
       | String _ s' => includes s' t
       end).

(** [a.sort(cmp)] with a comparison function that returns a number: the
    sort is stable, [cmp x y > 0] puts [y] first, and a NaN result counts
    as 0. *)
Section Sort.
Context {A : Type} (cmp : A -> A -> jsnum).

Fixpoint insert (x : A) (l : list A) : list A :=
  match l with
  | [] => [x]
  | y :: l' => if gt (cmp x y) zero then y :: insert x l' else x :: l
  end.

Definition sort (l : list A) : list A := fold_right insert [] l.
End Sort.

End JS.

Declare Scope js_scope.
Delimit Scope js_scope with js.
Bind Scope js_scope with JS.jsnum.
Notation "x - y" := (JS.sub x y) : js_scope.
Notation "x <? y" := (JS.lt x y) : js_scope.
Notation "x >? y" := (JS.gt x y) : js_scope.
Abbreviation jsnum := JS.jsnum.

Declare Scope f64_scope.
Delimit Scope f64_scope with f64.
Notation "x + y" := (JS.add64 x y) : f64_scope.
Notation "x - y" := (JS.sub64 x y) : f64_scope.
Notation "x * y" := (JS.mul64 x y) : f64_scope.
Notation "x / y" := (JS.div64 x y) : f64_scope.

(** A number literal with an integer value, and one given as a fraction. *)
Definition num (z : Z) : jsnum := JS.ofZ z.
Definition frac (n : Z) (d : positive) : jsnum := JS.Fin (n # d).

(** ** Calls that can throw *)

Inductive result (A : Type) : Type :=
| Ok (a : A)
| Throw (message : string).
Arguments Ok {A} a.
Arguments Throw {A} message.

Definition bind {A B : Type} (r : result A) (k : A -> result B) : result B :=
  match r with
  | Ok a => k a
  | Throw m => Throw m
  end.

Notation "x <- e ;; k" := (bind e (fun x => k))
  (at level 61, e at next level, right associativity).

(** Reading a property of [undefined] is a TypeError. *)
Definition defined {A : Type} (x : option A) : result A :=
  match x with
  | Some a => Ok a
  | None => Throw "TypeError: Cannot read properties of undefined"
  end.

(** [try { return body } catch (error) { return null }] *)
Definition try_or_null {A : Type} (body : result A) : option A :=
  match body with
  | Ok a => Some a
  | Throw _ => None
  end.

(** [x || d] where [x] may be [undefined]: the truthiness of a value
    depends on its type, an object is always truthy. *)
Class Truthy (A : Type) := truthy : A -> bool.
#[export] Instance Truthy_num : Truthy jsnum := JS.truthy_num.

Definition or_else {A : Type} `{Truthy A} (x : option A) (d : A) : A :=
  match x with
  | Some a => if truthy a then a else d
  | None => d
  end.

(** [x || null] *)
Definition or_null {A : Type} `{Truthy A} (x : option A) : option A :=
  match x with
  | Some a => if truthy a then Some a else None
  | None => None
  end.

(** [try { body } catch (error) { handler }] *)
Definition try_catch {A : Type} (body : result A) (handler : string -> result A)
    : result A :=
  match body with
  | Ok a => Ok a
  | Throw message => handler message
  end.

(** A field that may hold [undefined], [null] or a number. *)
Inductive jsval : Type :=
| Undefined
| Null
| Number (x : jsnum).

#[export] Instance Truthy_jsval : Truthy jsval :=
  fun v => match v with Number x => truthy x | _ => false end.

(** [v || d] on such fields. *)
Definition val_or (v d : jsval) : jsval := if truthy v then v else d.

(** [v !== null] *)
Definition not_null (v : jsval) : bool :=
  match v with Null => false | _ => true end.

(** The number an arithmetic operator reads from a field. *)
Definition to_number (v : jsval) : jsnum :=
  match v with
  | Undefined => JS.NaN
  | Null => JS.zero
  | Number x => x
  end.

(** ** Data model *)

(** A [Date] object: its time value in milliseconds, or Invalid Date. *)
Inductive date : Type :=
| Date (time : Z)
| InvalidDate.

(** [new Date(value)] for a number: the time value is the number cut to
    an integer, up to 8.64e15 ms on either side of the epoch; the date is
    invalid beyond, and for NaN and the infinities. *)
Definition new_Date (value : jsnum) : date :=
  match value with
  | JS.Fin x =>
    if JS.Qltb (inject_Z 8640000000000000) (Qabs x) then InvalidDate
    else Date (Z.quot (Qnum x) (QDen x))
  | JS.NZero => Date 0
  | JS.PInf | JS.NInf | JS.NaN => InvalidDate
  end.

Module Candle.
Record t : Type := mk {
  timestamp : date;
  open : jsnum;
  high : jsnum;
  low : jsnum;
  close : jsnum;
  volume : jsnum
}.
End Candle.

(** One row of the exchange's answer: [[time, open, high, low, close,
    volume]]. *)
Definition ohlcv_row : Type :=
  (jsnum * jsnum * jsnum * jsnum * jsnum * jsnum)%type.

(** [exchange.fetchOHLCV(symbol, timeframe, since, limit)] of ccxt: it
    answers with rows or throws. *)
Definition Exchange : Type :=
  string -> string -> option Z -> Z -> result (list ohlcv_row).

Module MACD.
Record t : Type := mk { MACD : jsnum; signal : jsnum; histogram : jsnum }.
End MACD.

Module BB.
Record t : Type := mk { upper : jsnum; middle : jsnum; lower : jsnum }.
End BB.

Module Stoch.
Record t : Type := mk { k : jsnum; d : jsnum }.
End Stoch.

#[export] Instance Truthy_MACD : Truthy MACD.t := fun _ => true.
#[export] Instance Truthy_BB : Truthy BB.t := fun _ => true.
#[export] Instance Truthy_Stoch : Truthy Stoch.t := fun _ => true.

(** The functions of [technicalindicators] that the bot calls, with the
    arguments in the order of the source's option objects.  Each returns
    the whole series or throws. *)
Module TI.
Record Lib : Type := mk {
  (* RSI.calculate({ values, period }) *)
  RSI : list jsnum -> Z -> result (list jsnum);
  (* MACD.calculate({ values, fastPeriod, slowPeriod, signalPeriod,
                      SimpleMAOscillator, SimpleMASignal }) *)
  MACD : list jsnum -> Z -> Z -> Z -> bool -> bool -> result (list MACD.t);
  (* BollingerBands.calculate({ period, values, stdDev }) *)
  BollingerBands : Z -> list jsnum -> Z -> result (list BB.t);
  (* SMA.calculate({ period, values }) *)
  SMA : Z -> list jsnum -> result (list jsnum);
  (* EMA.calculate({ period, values }) *)
  EMA : Z -> list jsnum -> result (list jsnum);
  (* Stochastic.calculate({ high, low, close, period, signalPeriod }) *)
  Stochastic : list jsnum -> list jsnum -> list jsnum -> Z -> Z -> result (list Stoch.t);
  (* ATR.calculate({ high, low, close, period }) *)
  ATR : list jsnum -> list jsnum -> list jsnum -> Z -> result (list jsnum)
}.
End TI.

Module Indicators.
Record t : Type := mk {
  rsi : jsnum;
  macd : MACD.t;
  bb : BB.t;
  sma20 : jsnum;
  sma50 : jsnum;
  sma200 : jsnum;
  ema12 : jsnum;
  ema26 : jsnum;
  stoch : Stoch.t;
  atr : jsnum
}.
End Indicators.

(** A template literal: literal text and [x.toFixed(2)] parts. *)
Inductive part : Type :=
| Text (s : string)
| ToFixed2 (x : jsnum).

Definition description : Type := list part.

Module Signal.
Record t : Type := mk { type : string; description : description }.
End Signal.

Module Sentiment.
Record t : Type := mk { sentiment : string; score : Z }.
End Sentiment.

Module Analysis.
Record t : Type := mk {
  symbol : string;
  currentPrice : jsnum;
  volume24h : jsnum;
  indicators : Indicators.t;
  signals : list Signal.t;
  sentiment : Sentiment.t;
  support : option jsnum;
  resistance : option jsnum;
  timestamp : Z
}.
End Analysis.

(** The fields of the bot object.  [portfolio] and [alerts] are created
    empty and never read or written by the source. *)
Module Bot.
Record t : Type := mk {
  watchlist : list string;
  portfolio : list (string * jsnum);
  alerts : list string
}.

(** [constructor()] *)
Definition new : t := mk [] [] [].
End Bot.

(** A ticker of the exchange, with the three fields the bot reads. *)
Module Ticker.
Record t : Type := mk { last : jsval; percentage : jsval; baseVolume : jsval }.
End Ticker.

(** [Object.entries] of the answer of [exchange.fetchTickers()], or the
    error it throws. *)
Definition Tickers : Type := result (list (string * Ticker.t)).

Module Performer.
Record t : Type := mk {
  symbol : string;
  price : jsval;
  change24h : jsval;
  volume24h : jsval
}.
End Performer.

(** What a route sends: [res.json(body)] or
    [res.status(500).json({ error })]. *)
Inductive response (A : Type) : Type :=
| Json (body : A)
| Status500 (error : string).
Arguments Json {A} body.
Arguments Status500 {A} error.

(** ** The methods of [AdvancedCryptoBot] *)

Local Open Scope js_scope.

(** [fetchOHLCV(symbol, timeframe = '1h', limit = 500)]: the rows as
    candle objects, [null] when the exchange throws. *)
Definition fetchOHLCV (exchange : Exchange) (symbol : string)
    (timeframe : string) (limit : Z) : option (list Candle.t) :=
  try_or_null
    (ohlcv <- exchange symbol timeframe None limit ;;
     Ok (map (fun candle : ohlcv_row =>
                let '(c0, c1, c2, c3, c4, c5) := candle in
                Candle.mk (new_Date c0) c1 c2 c3 c4 c5) ohlcv)).

Definition default_timeframe : string := "1h".
Definition default_limit : Z := 500%Z.

Section Indicators.
Variable ti : TI.Lib.

Definition zero_macd : MACD.t := MACD.mk (num 0) (num 0) (num 0).
Definition zero_bb : BB.t := BB.mk (num 0) (num 0) (num 0).
Definition zero_stoch : Stoch.t := Stoch.mk (num 0) (num 0).

(** The ten series, in the order the source computes them. *)
Definition rsi_series (data : list Candle.t) :=
  TI.RSI ti (map Candle.close data) 14.
Definition macd_series (data : list Candle.t) :=
  TI.MACD ti (map Candle.close data) 12 26 9 false false.
Definition bb_series (data : list Candle.t) :=
  TI.BollingerBands ti 20 (map Candle.close data) 2.
Definition sma_series (period : Z) (data : list Candle.t) :=
  TI.SMA ti period (map Candle.close data).
Definition ema_series (period : Z) (data : list Candle.t) :=
  TI.EMA ti period (map Candle.close data).
Definition stoch_series (data : list Candle.t) :=
  TI.Stochastic ti (map Candle.high data) (map Candle.low data)
    (map Candle.close data) 14 3.
Definition atr_series (data : list Candle.t) :=
  TI.ATR ti (map Candle.high data) (map Candle.low data)
    (map Candle.close data) 14.

(** [calculateIndicators(data)] *)
Definition calculateIndicators (data : list Candle.t) : option Indicators.t :=
  try_or_null
    (rsi <- rsi_series data ;;
     macd <- macd_series data ;;
     bb <- bb_series data ;;
     sma20 <- sma_series 20 data ;;
     sma50 <- sma_series 50 data ;;
     sma200 <- sma_series 200 data ;;
     ema12 <- ema_series 12 data ;;
     ema26 <- ema_series 26 data ;;
     stoch <- stoch_series data ;;
     atr <- atr_series data ;;
     Ok {| Indicators.rsi := or_else (JS.last_elem rsi) (num 0);
           Indicators.macd := or_else (JS.last_elem macd) zero_macd;
           Indicators.bb := or_else (JS.last_elem bb) zero_bb;
           Indicators.sma20 := or_else (JS.last_elem sma20) (num 0);
           Indicators.sma50 := or_else (JS.last_elem sma50) (num 0);
           Indicators.sma200 := or_else (JS.last_elem sma200) (num 0);
           Indicators.ema12 := or_else (JS.last_elem ema12) (num 0);
           Indicators.ema26 := or_else (JS.last_elem ema26) (num 0);
           Indicators.stoch := or_else (JS.last_elem stoch) zero_stoch;
           Indicators.atr := or_else (JS.last_elem atr) (num 0) |}).
End Indicators.

(** [rsiDivergenceStrategy(data, indicators)] *)
Definition rsiDivergenceStrategy (data : list Candle.t)
    (indicators : Indicators.t) : result (list Signal.t) :=
  let rsi := Indicators.rsi indicators in
  latest <- defined (JS.last_elem data) ;;
  let currentPrice := Candle.close latest in
  Ok (if rsi <? num 25 then
        [Signal.mk "STRONG BUY" [Text "RSI extremely oversold: "; ToFixed2 rsi]]
      else if rsi <? num 35 then
        [Signal.mk "BUY" [Text "RSI oversold: "; ToFixed2 rsi]]
      else if rsi >? num 75 then
        [Signal.mk "STRONG SELL" [Text "RSI extremely overbought: "; ToFixed2 rsi]]
      else if rsi >? num 65 then
        [Signal.mk "SELL" [Text "RSI overbought: "; ToFixed2 rsi]]
      else []).

(** [macdCrossoverStrategy(data, indicators)]: it does not read [data]. *)
Definition macdCrossoverStrategy (data : list Candle.t)
    (indicators : Indicators.t) : list Signal.t :=
  let macd := Indicators.macd indicators in
  if (MACD.MACD macd >? MACD.signal macd) && (MACD.histogram macd >? num 0) then
    [Signal.mk "BUY" [Text "MACD bullish crossover"]]
  else if (MACD.MACD macd <? MACD.signal macd) && (MACD.histogram macd <? num 0) then
    [Signal.mk "SELL" [Text "MACD bearish crossover"]]
  else [].

(** [bollingerBandsStrategy(data, indicators)] *)
Definition bollingerBandsStrategy (data : list Candle.t)
    (indicators : Indicators.t) : result (list Signal.t) :=
  latest <- defined (JS.last_elem data) ;;
  let currentPrice := Candle.close latest in
  let bb := Indicators.bb indicators in
  Ok (if currentPrice <? BB.lower bb then
        [Signal.mk "BUY" [Text "Price broke below lower Bollinger Band"]]
      else if currentPrice >? BB.upper bb then
        [Signal.mk "SELL" [Text "Price broke above upper Bollinger Band"]]
      else []).

(** The two numbers the volume strategy derives from the candles. *)
Definition avgVolume (data : list Candle.t) : jsnum :=
  (fold_left (fun sum d => sum + Candle.volume d) (JS.slice_last 20 data) (num 0)
   / num 20)%f64.

Definition priceChange (current previous : Candle.t) : jsnum :=
  (((Candle.close current - Candle.close previous) / Candle.close previous)
   * num 100)%f64.

(** [volumeBreakoutStrategy(data)] *)
Definition volumeBreakoutStrategy (data : list Candle.t) : result (list Signal.t) :=
  if (length data <? 21)%nat then Ok []
  else
    current <- defined (nth_error data (length data - 1)) ;;
    previous <- defined (nth_error data (length data - 2)) ;;
    let avgVolume := avgVolume data in
    let priceChange := priceChange current previous in
    Ok (if Candle.volume current >? (avgVolume * num 2)%f64 then
          if priceChange >? num 2 then
            [Signal.mk "STRONG BUY"
               [Text "High volume breakout: "; ToFixed2 priceChange; Text "% move"]]
          else if priceChange <? num (-2) then
            [Signal.mk "STRONG SELL"
               [Text "High volume breakdown: "; ToFixed2 priceChange; Text "% move"]]
          else []
        else []).

(** The body of the [forEach] callback of [analyzeSentiment]: the score
    after one more signal. *)
Definition score_step (score : Z) (signal : Signal.t) : Z :=
  let type := Signal.type signal in
  if JS.includes type "STRONG BUY" || JS.includes type "BULLISH" then (score + 3)%Z
  else if JS.includes type "BUY" then (score + 1)%Z
  else if JS.includes type "STRONG SELL" || JS.includes type "BEARISH" then (score - 3)%Z
  else if JS.includes type "SELL" then (score - 1)%Z
  else score.

(** [analyzeSentiment(signals)] *)
Definition analyzeSentiment (signals : list Signal.t) : Sentiment.t :=
  let score := fold_left score_step signals 0%Z in
  let sentiment :=
    if (score >? 5)%Z then "VERY BULLISH"
    else if (score >? 2)%Z then "BULLISH"
    else if (score <? -5)%Z then "VERY BEARISH"
    else if (score <? -2)%Z then "BEARISH"
    else "NEUTRAL" in
  {| Sentiment.sentiment := sentiment; Sentiment.score := score |}.

(** The two level lists of [analyzeCoin]: the highs above the price in
    ascending order, the lows below it in descending order. *)
Definition resistanceLevels (recent50 : list Candle.t) (currentPrice : jsnum)
    : list jsnum :=
  JS.sort (fun a b => a - b)
    (map Candle.high
       (filter (fun d => Candle.high d >? currentPrice) recent50)).

Definition supportLevels (recent50 : list Candle.t) (currentPrice : jsnum)
    : list jsnum :=
  JS.sort (fun a b => b - a)
    (map Candle.low
       (filter (fun d => Candle.low d <? currentPrice) recent50)).

Section Orchestrator.
Variable exchange : Exchange.
Variable ti : TI.Lib.
(** The value of [new Date()] when the result is assembled. *)
Variable now : Z.

(** The [try] block of [analyzeCoin]. *)
Definition analyzeCoin_body (this : Bot.t) (symbol : string)
    : result Analysis.t :=
  match fetchOHLCV exchange symbol default_timeframe default_limit with
  | None => Throw "Insufficient data for analysis"
  | Some data =>
    if (length data <? 200)%nat then Throw "Insufficient data for analysis"
    else
      match calculateIndicators ti data with
      | None => Throw "Failed to calculate indicators"
      | Some indicators =>
        let latest := JS.last_elem data in
        rsiSignals <- rsiDivergenceStrategy data indicators ;;
        let macdSignals := macdCrossoverStrategy data indicators in
        bbSignals <- bollingerBandsStrategy data indicators ;;
        volumeSignals <- volumeBreakoutStrategy data ;;
        let allSignals :=
          (rsiSignals ++ macdSignals ++ bbSignals ++ volumeSignals)%list in
        let sentimentData := analyzeSentiment allSignals in
        let recent50 := JS.slice_last 50 data in
        latest <- defined latest ;;
        let currentPrice := Candle.close latest in
        let resistanceLevels := resistanceLevels recent50 currentPrice in
        let supportLevels := supportLevels recent50 currentPrice in
        Ok {| Analysis.symbol := symbol;
              Analysis.currentPrice := Candle.close latest;
              Analysis.volume24h := Candle.volume latest;
              Analysis.indicators := indicators;
              Analysis.signals := allSignals;
              Analysis.sentiment := sentimentData;
              Analysis.support := or_null (nth_error supportLevels 0);
              Analysis.resistance := or_null (nth_error resistanceLevels 0);
              Analysis.timestamp := now |}
      end
  end.

(** [analyzeCoin(symbol)]: the answer of the promise and the bot object
    after the call.  The method assigns to no field of [this]. *)
Definition analyzeCoin (this : Bot.t) (symbol : string)
    : result (option Analysis.t) * Bot.t :=
  (Ok (try_or_null (analyzeCoin_body this symbol)), this).
End Orchestrator.

(** The comparison function of [getTopPerformers]:
    [(b.change24h || 0) - (a.change24h || 0)]. *)
Definition by_change_desc (a b : Performer.t) : jsnum :=
  to_number (val_or (Performer.change24h b) (Number (num 0)))
  - to_number (val_or (Performer.change24h a) (Number (num 0))).

(** [getTopPerformers()] *)
Definition getTopPerformers (fetchTickers : Tickers) : result (list Performer.t) :=
  try_catch
    (tickers <- fetchTickers ;;
     let usdtPairs :=
       firstn 20
         (JS.sort by_change_desc
            (map (fun entry : string * Ticker.t =>
                    let '(symbol, data) := entry in
                    {| Performer.symbol := symbol;
                       Performer.price := Ticker.last data;
                       Performer.change24h := Ticker.percentage data;
                       Performer.volume24h :=
                         val_or (Ticker.baseVolume data) (Number (num 0)) |})
               (filter (fun entry : string * Ticker.t =>
                          let '(symbol, data) := entry in
                          JS.includes symbol "/USDT"
                          && not_null (Ticker.percentage data))
                  tickers))) in
     Ok usdtPairs)
    (fun error => Ok []).

(** ** The watchlist routes *)

(** [a.includes(x)] on an array of strings. *)
Definition array_includes (a : list string) (x : string) : bool :=
  existsb (String.eqb x) a.

(** [POST /api/watchlist/add]: the bot after the request and the
    watchlist sent back. *)
Definition watchlist_add (symbol : string) (bot : Bot.t) : Bot.t * list string :=
  let bot' :=
    if negb (array_includes (Bot.watchlist bot) symbol) then
      {| Bot.watchlist := (Bot.watchlist bot ++ [symbol])%list;
         Bot.portfolio := Bot.portfolio bot;
         Bot.alerts := Bot.alerts bot |}
    else bot in
  (bot', Bot.watchlist bot').

(** [DELETE /api/watchlist/:symbol] *)
Definition watchlist_delete (symbol : string) (bot : Bot.t) : Bot.t * list string :=
  let bot' :=
    {| Bot.watchlist :=
         filter (fun s => negb (String.eqb s symbol)) (Bot.watchlist bot);
       Bot.portfolio := Bot.portfolio bot;
       Bot.alerts := Bot.alerts bot |} in
  (bot', Bot.watchlist bot').

(** [GET /api/watchlist] *)
Definition watchlist_get (bot : Bot.t) : list string := Bot.watchlist bot.

(** [GET /api/watchlist/analysis], run with no other request in between:
    the symbols are analysed one after the other, [clock n] is the value
    of the [n]-th [new Date()] of the run and [reads] counts them (an
    analysis reads the clock when it assembles a result). *)
Section WatchlistAnalysis.
Variable exchange : Exchange.
Variable ti : TI.Lib.
Variable clock : nat -> Z.

Fixpoint watchlist_loop (symbols : list string) (this : Bot.t) (reads : nat)
    (watchlistData : list Analysis.t) : result (list Analysis.t) :=
  match symbols with
  | [] => Ok watchlistData
  | symbol :: rest =>
    let '(answer, this') := analyzeCoin exchange ti (clock reads) this symbol in
    step <- try_catch
              (analysis <- answer ;;
               match analysis with
               | Some a => Ok (S reads, (watchlistData ++ [a])%list)
               | None => Ok (reads, watchlistData)
               end)
              (fun error => Ok (reads, watchlistData)) ;;
    watchlist_loop rest this' (fst step) (snd step)
  end.

Definition api_watchlist_analysis (bot : Bot.t)
    : response (list Analysis.t) * Bot.t :=
  match watchlist_loop (Bot.watchlist bot) bot 0 [] with
  | Ok watchlistData => (Json watchlistData, bot)
  | Throw message => (Status500 message, bot)
  end.
End WatchlistAnalysis.

Local Close Scope js_scope.

(** ** The server over a sequence of watchlist requests *)

(** The requests that change the watchlist, and the bot after a sequence
    of them, each handled to its end before the next. *)
Inductive request : Type :=
| Add (symbol : string)
| Delete (symbol : string).

Definition handle (bot : Bot.t) (r : request) : Bot.t :=
  match r with
  | Add symbol => fst (watchlist_add symbol bot)
  | Delete symbol => fst (watchlist_delete symbol bot)
  end.

Definition serve (requests : list request) (bot : Bot.t) : Bot.t :=
  fold_left handle requests bot.

(** * Specifications *)

(** The contribution of one signal type, in the words of the
    specification. *)
Definition spec_contribution (type : string) : Z :=
  if JS.includes type "STRONG BUY" || JS.includes type "BULLISH" then 3
  else if JS.includes type "BUY" then 1
  else if JS.includes type "STRONG SELL" || JS.includes type "BEARISH" then -3
  else if JS.includes type "SELL" then -1
  else 0.

Definition spec_score (signals : list Signal.t) : Z :=
  fold_right Z.add 0 (map (fun s => spec_contribution (Signal.type s)) signals).

Definition spec_label (score : Z) : string :=
  if Z_gt_dec score 5 then "VERY BULLISH"
  else if Z_gt_dec score 2 then "BULLISH"
  else if Z_lt_dec score (-5) then "VERY BEARISH"
  else if Z_lt_dec score (-2) then "BEARISH"
  else "NEUTRAL".

Definition types (signals : list Signal.t) : list string :=
  map Signal.type signals.

(** The decision of the RSI strategy in the words of the specification. *)
Definition spec_rsi_types (rsi : jsnum) : list string :=
  if (rsi <? num 25)%js then ["STRONG BUY"]
  else if (rsi <? num 35)%js then ["BUY"]
  else if (rsi >? num 75)%js then ["STRONG SELL"]
  else if (rsi >? num 65)%js then ["SELL"]
  else [].


Definition throws {A : Type} (r : result A) : Prop := exists m, r = Throw m.

(** One of the ten library calls of [calculateIndicators] throws. *)
Definition ti_throws (ti : TI.Lib) (data : list Candle.t) : Prop :=
  throws (rsi_series ti data) \/ throws (macd_series ti data)
  \/ throws (bb_series ti data) \/ throws (sma_series ti 20 data)
  \/ throws (sma_series ti 50 data) \/ throws (sma_series ti 200 data)
  \/ throws (ema_series ti 12 data) \/ throws (ema_series ti 26 data)
  \/ throws (stoch_series ti data) \/ throws (atr_series ti data).

(** The result that [analyzeCoin] assembles from a candle window, an
    indicator snapshot and the signals of the four strategies. *)
Definition assemble (symbol : string) (now : Z) (data : list Candle.t)
    (indicators : Indicators.t) (latest : Candle.t)
    (allSignals : list Signal.t) : Analysis.t :=
  {| Analysis.symbol := symbol;
     Analysis.currentPrice := Candle.close latest;
     Analysis.volume24h := Candle.volume latest;
     Analysis.indicators := indicators;
     Analysis.signals := allSignals;
     Analysis.sentiment := analyzeSentiment allSignals;
     Analysis.support :=
       or_null (nth_error (supportLevels (JS.slice_last 50 data)
                             (Candle.close latest)) 0);
     Analysis.resistance :=
       or_null (nth_error (resistanceLevels (JS.slice_last 50 data)
                             (Candle.close latest)) 0);
     Analysis.timestamp := now |}.

(** The three ways an analysis fails. *)
Definition analysis_fails (exchange : Exchange) (ti : TI.Lib) (symbol : string)
    : Prop :=
  fetchOHLCV exchange symbol default_timeframe default_limit = None
  \/ exists data,
       fetchOHLCV exchange symbol default_timeframe default_limit = Some data
       /\ ((length data < 200)%nat \/ calculateIndicators ti data = None).

(** An answer of [analyzeCoin] with its timestamp cleared. *)
Definition without_timestamp (answer : result (option Analysis.t))
    : result (option Analysis.t) :=
  match answer with
  | Ok (Some r) =>
    Ok (Some {| Analysis.symbol := Analysis.symbol r;
                Analysis.currentPrice := Analysis.currentPrice r;
                Analysis.volume24h := Analysis.volume24h r;
                Analysis.indicators := Analysis.indicators r;
                Analysis.signals := Analysis.signals r;
                Analysis.sentiment := Analysis.sentiment r;
                Analysis.support := Analysis.support r;
                Analysis.resistance := Analysis.resistance r;
                Analysis.timestamp := 0 |})
  | other => other
  end.

(** [a <= b] for numbers that are not NaN. *)
Definition not_above (a b : jsnum) : Prop := (a >? b)%js = false.

Definition is_number (a : jsnum) : Prop := a <> JS.NaN.

(** The head of a list is not above any of its elements, for an order
    [above]. *)
Definition head_first (above : jsnum -> jsnum -> bool) (l : list jsnum) : Prop :=
  match l with
  | [] => True
  | m :: _ => forall y, In y l -> above m y = false
  end.

(** A signal type mentions a keyword. *)
Definition mentions (type keyword : string) : Prop :=
  exists before after, type = before ++ keyword ++ after.

(** A time value that [new Date] keeps. *)
Definition valid_time (time : Z) : Prop :=
  (- 8640000000000000 <= time <= 8640000000000000)%Z.

(** [z] is [x] without its fraction. *)
Definition cut_of (x : Q) (z : Z) : Prop :=
  (Qabs (inject_Z z) <= Qabs x)%Q
  /\ (Qabs x < Qabs (inject_Z z) + 1)%Q
  /\ (0 <= inject_Z z * x)%Q.

(** The date of a time value: the time without its fraction when it is
    within 8.64e15 ms of the epoch, Invalid Date otherwise. *)
Inductive date_of : jsnum -> date -> Prop :=
| date_of_time (x : Q) (z : Z) :
    (Qabs x <= inject_Z 8640000000000000)%Q -> cut_of x z ->
    date_of (JS.Fin x) (Date z)
| date_of_negative_zero : date_of JS.NZero (Date 0)
| date_of_beyond (x : Q) :
    (inject_Z 8640000000000000 < Qabs x)%Q -> date_of (JS.Fin x) InvalidDate
| date_of_PInf : date_of JS.PInf InvalidDate
| date_of_NInf : date_of JS.NInf InvalidDate
| date_of_NaN : date_of JS.NaN InvalidDate.

(** [date.getTime()] *)
Definition getTime (d : date) : jsnum :=
  match d with Date time => num time | InvalidDate => JS.NaN end.

(** The row read back from a candle. *)
Definition row_of (d : Candle.t) : ohlcv_row :=
  (getTime (Candle.timestamp d),
   Candle.open d, Candle.high d, Candle.low d, Candle.close d, Candle.volume d).

(** The time of a row is an integer that [new Date] keeps. *)
Definition row_time_valid (row : ohlcv_row) : Prop :=
  let '(t, _, _, _, _, _) := row in exists z, valid_time z /\ t = num z.

(** The analysis of a symbol gives a result: its candles are fetched,
    there are 200 or more and the indicators are computed. *)
Definition can_analyze (exchange : Exchange) (ti : TI.Lib) (symbol : string)
    : bool :=
  match fetchOHLCV exchange symbol default_timeframe default_limit with
  | Some data =>
    (200 <=? length data)%nat
    && match calculateIndicators ti data with Some _ => true | None => false end
  | None => false
  end.

(** Whether a symbol is on the watchlist after a sequence of requests,
    read off the requests alone: the last request about the symbol
    decides, and [before] when there is none. *)
Definition listed_after (symbol : string) (requests : list request)
    (before : bool) : bool :=
  fold_left (fun listed r =>
               match r with
               | Add x => if String.eqb x symbol then true else listed
               | Delete x => if String.eqb x symbol then false else listed
               end) requests before.

(** The 24h change a performer is ranked by: a missing change, 0 and NaN
    rank as 0. *)
Definition rank (p : Performer.t) : jsnum :=
  match Performer.change24h p with
  | Number x => if truthy x then x else num 0
  | _ => num 0
  end.

(** The performer entry of a ticker. *)
Definition performer_of (entry : string * Ticker.t) : Performer.t :=
  {| Performer.symbol := fst entry;
     Performer.price := Ticker.last (snd entry);
     Performer.change24h := Ticker.percentage (snd entry);
     Performer.volume24h :=
       match Ticker.baseVolume (snd entry) with
       | Number x => if truthy x then Number x else Number (num 0)
       | _ => Number (num 0)
       end |}.

(** A ticker that [getTopPerformers] lists: a USDT pair whose percentage
    is not [null]. *)
Definition usdt_pair (entry : string * Ticker.t) : Prop :=
  mentions (fst entry) "/USDT" /\ Ticker.percentage (snd entry) <> Null.

(** How a snapshot field follows from a series that is not empty: a
    number is kept unless it is 0 or NaN, a record is kept as it is. *)
Definition scalar_of (series : result (list jsnum)) (field : jsnum) : Prop :=
  forall earlier x,
    series = Ok (earlier ++ [x])%list ->
    field = if truthy x then x else num 0.

Definition record_of {A : Type} (series : result (list A)) (field : A) : Prop :=
  forall earlier x, series = Ok (earlier ++ [x])%list -> field = x.

(** The four signal types of the strategies. *)
Definition signal_types : list string :=
  ["STRONG BUY"; "BUY"; "SELL"; "STRONG SELL"].

(** The score of a list of signal types. *)
Definition type_score (ts : list string) : Z :=
  fold_right Z.add 0 (map spec_contribution ts).

(** The value of a finite double is a multiple of 2^-1074. *)
Definition grid_q (x : Q) : Prop :=
  exists z : Z, (Qnum x * 2 ^ 1074 = z * QDen x)%Z.

Definition is_double_value (a : jsnum) : Prop :=
  match a with JS.Fin x => grid_q x | _ => True end.

(** * Example inputs *)

(** A signal of a given type, without text. *)
Definition signal_of (type : string) : Signal.t := Signal.mk type [].

Definition with_rsi (rsi : jsnum) : Indicators.t :=
  Indicators.mk rsi zero_macd zero_bb (num 0) (num 0) (num 0) (num 0) (num 0)
    zero_stoch (num 0).

Definition with_macd (macd signal histogram : jsnum) : Indicators.t :=
  Indicators.mk (num 50) (MACD.mk macd signal histogram) zero_bb
    (num 0) (num 0) (num 0) (num 0) (num 0) zero_stoch (num 0).

(** A candle of which only the close and the volume matter. *)
Definition bar (close volume : jsnum) : Candle.t :=
  Candle.mk (Date 0) close close close close volume.

(** 21 candles: the trailing 20 have volumes 17 x 100, 2 x 25 and the
    current one, with the close of the current candle a parameter. *)
Definition breakout_window (close volume : jsnum) : list Candle.t :=
  (bar (num 100) (num 7) :: repeat (bar (num 100) (num 100)) 17
   ++ [bar (num 100) (num 25); bar (num 100) (num 25); bar close volume])%list.

(** A stand-in for [technicalindicators]: every series is empty while the
    input is shorter than the period and has one value per later candle. *)
Definition stub_ti : TI.Lib :=
  {| TI.RSI := fun values period =>
       Ok (map (fun _ => num 50) (skipn (Z.to_nat period) values));
     TI.MACD := fun values fast slow signal _ _ =>
       Ok (map (fun v => MACD.mk (num 1) (frac 1 2) (frac 1 2))
             (skipn (Z.to_nat slow - 1) values));
     TI.BollingerBands := fun period values stdDev =>
       Ok (map (fun v => BB.mk (v + num stdDev) v (v - num stdDev))%f64
             (skipn (Z.to_nat period - 1) values));
     TI.SMA := fun period values => Ok (skipn (Z.to_nat period - 1) values);
     TI.EMA := fun period values => Ok (skipn (Z.to_nat period - 1) values);
     TI.Stochastic := fun high low close period signalPeriod =>
       Ok (map (fun _ => Stoch.mk (num 50) (num 50))
             (skipn (Z.to_nat period - 1) close));
     TI.ATR := fun high low close period =>
       Ok (map (fun _ => num 1) (skipn (Z.to_nat period) close)) |}.

(** The same library with an ATR that throws. *)
Definition throwing_ti : TI.Lib :=
  {| TI.RSI := TI.RSI stub_ti;
     TI.MACD := TI.MACD stub_ti;
     TI.BollingerBands := TI.BollingerBands stub_ti;
     TI.SMA := TI.SMA stub_ti;
     TI.EMA := TI.EMA stub_ti;
     TI.Stochastic := TI.Stochastic stub_ti;
     TI.ATR := fun _ _ _ _ => Throw "ATR failed" |}.

(** Hourly rows that all trade at 100, except that the row of index
    [dip] has the low [dip_low]. *)
Definition flat_rows (n dip : nat) (dip_low : jsnum) : list ohlcv_row :=
  map (fun i =>
         (num (Z.of_nat i * 3600000), num 100, num 100,
          if (i =? dip)%nat then dip_low else num 100, num 100, num 10))
      (seq 0 n).

(** An exchange that answers every request with the given rows, truncated
    to the limit. *)
Definition exchange_of (rows : list ohlcv_row) : Exchange :=
  fun _ _ _ limit => Ok (firstn (Z.to_nat limit) rows).

(** An exchange that is down. *)
Definition exchange_down : Exchange :=
  fun _ _ _ _ => Throw "NetworkError".

(** Three candles with the highs 105, 110, 120 and the lows 90, 95, 98. *)
Definition three_candles : list Candle.t :=
  [Candle.mk (Date 0) (num 100) (num 105) (num 90) (num 100) (num 10);
   Candle.mk (Date 1) (num 100) (num 110) (num 95) (num 100) (num 10);
   Candle.mk (Date 2) (num 100) (num 120) (num 98) (num 100) (num 10)].

(** 200 hourly candles at 100; the candle of index 180 has a low of 0. *)
Definition zero_low_rows : list ohlcv_row := flat_rows 200 180 (num 0).

(** Five candles: too few for every indicator. *)
Definition five_candles : list Candle.t :=
  repeat (bar (num 100) (num 10)) 5.

(** An exchange that knows one symbol only. *)
Definition single_market (symbol : string) (rows : list ohlcv_row) : Exchange :=
  fun s _ _ _ => if String.eqb s symbol then Ok rows else Throw "BadSymbol".

Definition busy_bot : Bot.t :=
  Bot.mk ["BTC/USDT"; "ETH/USDT"] [("BTC", num 2)] ["RSI alert"].

(** A library whose series are all empty. *)
Definition blind_ti : TI.Lib :=
  {| TI.RSI := fun _ _ => Ok [];
     TI.MACD := fun _ _ _ _ _ _ => Ok [];
     TI.BollingerBands := fun _ _ _ => Ok [];
     TI.SMA := fun _ _ => Ok [];
     TI.EMA := fun _ _ => Ok [];
     TI.Stochastic := fun _ _ _ _ _ => Ok [];
     TI.ATR := fun _ _ _ _ => Ok [] |}.

(** A library whose last values are all bullish: RSI 10, MACD above its
    signal with a positive histogram, Bollinger bands above 200. *)
Definition bullish_ti : TI.Lib :=
  {| TI.RSI := fun _ _ => Ok [num 10];
     TI.MACD := fun _ _ _ _ _ _ => Ok [MACD.mk (num 1) (frac 1 2) (frac 1 2)];
     TI.BollingerBands := fun _ _ _ =>
       Ok [BB.mk (num 300) (num 250) (num 200)];
     TI.SMA := fun _ _ => Ok [num 100];
     TI.EMA := fun _ _ => Ok [num 100];
     TI.Stochastic := fun _ _ _ _ _ => Ok [Stoch.mk (num 50) (num 50)];
     TI.ATR := fun _ _ _ _ => Ok [num 1] |}.

(** 200 hourly rows at 100 with volume 10, the last one closing at 103
    with volume 1000. *)
Definition breakout_rows : list ohlcv_row :=
  (flat_rows 199 199 (num 100)
   ++ [(num (199 * 3600000), num 100, num 103, num 100, num 103, num 1000)])%list.

(** Five tickers: two USDT pairs with a change, one with an undefined
    percentage, one with a [null] percentage and one BTC pair. *)
Definition example_tickers : list (string * Ticker.t) :=
  [("XRP/USDT", Ticker.mk (Number (num 1)) (Number (num (-3))) (Number (num 9)));
   ("ETH/BTC", Ticker.mk (Number (num 1)) (Number (num 7)) (Number (num 9)));
   ("SOL/USDT", Ticker.mk (Number (num 20)) Undefined Undefined);
   ("DOGE/USDT", Ticker.mk (Number (num 1)) Null (Number (num 9)));
   ("BTC/USDT", Ticker.mk (Number (num 100)) (Number (num 5)) (Number (num 9)))].

(** Four rows: one at the epoch, one a millisecond past the last valid
    time, one at -1.5 ms and one without a time. *)
Definition edge_rows : list ohlcv_row :=
  [(num 0, num 1, num 2, num 1, num 2, num 3);
   (num 8640000000000001, num 1, num 2, num 1, num 2, num 3);
   (frac (-3) 2, num 1, num 2, num 1, num 2, num 3);
   (JS.NaN, num 1, num 2, num 1, num 2, num 3)].

(** 21 candles from the volumes of the 20 before the current one, the
    close of the candle before the current one, and the current candle:
    the closes are 100 up to that candle. *)
Definition volume_window (earlier : list jsnum) (previous_close : jsnum)
    (current : Candle.t) : list Candle.t :=
  (map (bar (num 100)) (removelast earlier)
   ++ [bar previous_close (last earlier (num 0)); current])%list.

(** The doubles 6.333333333333334, 211.11111111111111, 57.3 and
    120.96666666666664. *)
Definition d6_333333333333334 : jsnum := frac 3565349705001643 562949953421312.
Definition d211_11111111111111 : jsnum := frac 7427811885420089 35184372088832.
Definition d57_3 : jsnum := frac 4032129041380147 70368744177664.
Definition d120_96666666666664 : jsnum := frac 2128068105172855 17592186044416.

(** * Properties *)

(** ** Numbers and arrays *)

Lemma Qltb_lt (a b : Q) : JS.Qltb a b = true <-> (a < b)%Q.
Proof.
  unfold JS.Qltb. rewrite Qlt_alt.
  destruct (a ?= b)%Q; split; intro H; congruence.
Qed.

Lemma Qltb_ge (a b : Q) : JS.Qltb a b = false <-> (b <= a)%Q.
Proof.
  rewrite <- Bool.not_true_iff_false, Qltb_lt. split.
  - apply Qnot_lt_le.
  - apply Qle_not_lt.
Qed.

(** Boolean comparisons of rationals in the context, as propositions. *)
Ltac to_Q :=
  repeat match goal with
         | H : JS.Qltb _ _ = true |- _ => apply Qltb_lt in H
         | H : JS.Qltb _ _ = false |- _ => apply Qltb_ge in H
         end.

Lemma lt_Fin (a b : Q) : (JS.Fin a <? JS.Fin b)%js = true <-> (a < b)%Q.
Proof. apply Qltb_lt. Qed.

Lemma gt_Fin (a b : Q) : (JS.Fin a >? JS.Fin b)%js = true <-> (b < a)%Q.
Proof. apply Qltb_lt. Qed.

Lemma lt_asym (a b : jsnum) : (a <? b)%js = true -> (b <? a)%js = false.
Proof.
  destruct a as [x| | | |], b as [y| | | |]; cbn [JS.lt]; try congruence;
    intro H; to_Q; first [apply Qltb_ge; lra|exfalso; lra].
Qed.

Lemma lt_irrefl (a : jsnum) : (a <? a)%js = false.
Proof.
  destruct a as [x| | | |]; simpl; try reflexivity.
  apply Qltb_ge, Qle_refl.
Qed.

Lemma lt_trans (a b c : jsnum) :
  (a <? b)%js = true -> (b <? c)%js = true -> (a <? c)%js = true.
Proof.
  destruct a as [x| | | |], b as [y| | | |], c as [z| | | |]; cbn [JS.lt];
    try congruence; intros H1 H2; to_Q;
    first [apply Qltb_lt; lra|exfalso; lra].
Qed.

Lemma last_elem_app {A : Type} (l : list A) (x : A) :
  JS.last_elem (l ++ [x]) = Some x.
Proof.
  unfold JS.last_elem. rewrite length_app. simpl.
  replace (length l + 1 - 1)%nat with (length l) by lia.
  rewrite nth_error_app2 by lia. now rewrite Nat.sub_diag.
Qed.

Lemma last_elem_nonempty {A : Type} (l : list A) :
  l <> [] -> exists x, JS.last_elem l = Some x.
Proof.
  destruct l as [|a l] using rev_ind; [congruence|].
  intros _. exists a. apply last_elem_app.
Qed.

Lemma last_elem_in {A : Type} (l : list A) (x : A) :
  JS.last_elem l = Some x -> In x l.
Proof. unfold JS.last_elem. apply nth_error_In. Qed.

Lemma slice_last_app {A : Type} (n : nat) (l : list A) :
  exists prefix, l = (prefix ++ JS.slice_last n l)%list
                 /\ length (JS.slice_last n l) = Nat.min n (length l).
Proof.
  unfold JS.slice_last. exists (firstn (length l - n) l). split.
  - now rewrite firstn_skipn.
  - rewrite length_skipn. lia.
Qed.

(** ** The sentiment aggregator *)

Lemma score_step_contribution (score : Z) (s : Signal.t) :
  score_step score s = score + spec_contribution (Signal.type s).
Proof.
  unfold score_step, spec_contribution.
  repeat match goal with |- context [if ?c then _ else _] => destruct c end; lia.
Qed.

Lemma fold_score_step (signals : list Signal.t) (acc : Z) :
  fold_left score_step signals acc = acc + spec_score signals.
Proof.
  revert acc. induction signals as [|s signals IH]; intro acc; simpl.
  - unfold spec_score. simpl. lia.
  - rewrite IH, score_step_contribution. unfold spec_score. simpl. lia.
Qed.

Lemma contribution_bounds (type : string) : -3 <= spec_contribution type <= 3.
Proof.
  unfold spec_contribution.
  repeat match goal with |- context [if ?c then _ else _] => destruct c end; lia.
Qed.

Lemma spec_score_bounds (signals : list Signal.t) :
  - 3 * Z.of_nat (length signals) <= spec_score signals
  <= 3 * Z.of_nat (length signals).
Proof.
  induction signals as [|s signals IH].
  - unfold spec_score; simpl; lia.
  - pose proof (contribution_bounds (Signal.type s)).
    unfold spec_score in *. simpl map. simpl fold_right. simpl length. lia.
Qed.

(** C1: the score of [analyzeSentiment] is the sum of the per-signal
    contributions (+3, +1, -3, -1 or 0 by the first matching substring
    test) and the label follows from the total by the strict comparisons
    >5, >2, <-5, <-2; [STRONG BUY, BUY] gives 4 and BULLISH,
    [STRONG BUY, STRONG BUY] gives 6 and VERY BULLISH, no signal gives 0
    and NEUTRAL. *)
Theorem analyzeSentiment_spec :
  (forall signals : list Signal.t,
      analyzeSentiment signals =
      {| Sentiment.sentiment := spec_label (spec_score signals);
         Sentiment.score := spec_score signals |})
  /\ analyzeSentiment [signal_of "STRONG BUY"; signal_of "BUY"] = Sentiment.mk "BULLISH" 4
  /\ analyzeSentiment [signal_of "STRONG BUY"; signal_of "STRONG BUY"]
     = Sentiment.mk "VERY BULLISH" 6
  /\ analyzeSentiment [] = Sentiment.mk "NEUTRAL" 0.
Proof.
  split; [|repeat split; reflexivity].
  intro signals. unfold analyzeSentiment.
  rewrite fold_score_step, Z.add_0_l.
  f_equal. unfold spec_label.
  generalize (spec_score signals) as n. intro n.
  destruct (Z.gtb_spec n 5), (Z_gt_dec n 5); try lia; [reflexivity|].
  destruct (Z.gtb_spec n 2), (Z_gt_dec n 2); try lia; [reflexivity|].
  destruct (Z.ltb_spec n (-5)), (Z_lt_dec n (-5)); try lia; [reflexivity|].
  destruct (Z.ltb_spec n (-2)), (Z_lt_dec n (-2)); try lia; reflexivity.
Qed.

(** ** The strategies *)

Lemma spec_rsi_types_Fin (q : Q) :
  ((q < 25)%Q -> spec_rsi_types (JS.Fin q) = ["STRONG BUY"])
  /\ ((25 <= q < 35)%Q -> spec_rsi_types (JS.Fin q) = ["BUY"])
  /\ ((75 < q)%Q -> spec_rsi_types (JS.Fin q) = ["STRONG SELL"])
  /\ ((65 < q <= 75)%Q -> spec_rsi_types (JS.Fin q) = ["SELL"])
  /\ ((35 <= q <= 65)%Q -> spec_rsi_types (JS.Fin q) = []).
Proof.
  unfold spec_rsi_types, num, JS.ofZ, JS.gt.
  assert (E : forall z : Z, inject_Z z = (z # 1)%Q) by reflexivity.
  rewrite !E.
  destruct (JS.Fin q <? JS.Fin 25)%js eqn:H25;
    destruct (JS.Fin q <? JS.Fin 35)%js eqn:H35;
    destruct (JS.Fin 75 <? JS.Fin q)%js eqn:H75;
    destruct (JS.Fin 65 <? JS.Fin q)%js eqn:H65;
    cbn [JS.lt] in H25, H35, H75, H65; to_Q;
    repeat split; intros; try reflexivity; exfalso; lra.
Qed.

Lemma rsi_run (data : list Candle.t) (indicators : Indicators.t) :
  data <> [] ->
  exists signals,
    rsiDivergenceStrategy data indicators = Ok signals
    /\ (length signals <= 1)%nat
    /\ types signals = spec_rsi_types (Indicators.rsi indicators).
Proof.
  intro Hne. destruct (last_elem_nonempty data Hne) as [latest Hlast].
  unfold rsiDivergenceStrategy, spec_rsi_types. rewrite Hlast. cbn [defined bind].
  destruct (_ <? num 25)%js; [eexists; repeat split; simpl; lia|].
  destruct (_ <? num 35)%js; [eexists; repeat split; simpl; lia|].
  destruct (_ >? num 75)%js; [eexists; repeat split; simpl; lia|].
  destruct (_ >? num 65)%js; eexists; repeat split; simpl; lia.
Qed.

(** C2: on a non-empty candle list the RSI strategy returns at most one
    signal, chosen by the latest RSI value alone: below 25 STRONG BUY,
    else below 35 BUY, else above 75 STRONG SELL, else above 65 SELL,
    else nothing; so 65 gives no signal and 65.1 gives SELL. *)
Theorem rsi_strategy_thresholds (data : list Candle.t) (indicators : Indicators.t) :
  data <> [] ->
  exists signals,
    rsiDivergenceStrategy data indicators = Ok signals
    /\ (length signals <= 1)%nat
    /\ types signals = spec_rsi_types (Indicators.rsi indicators)
    /\ (forall q, Indicators.rsi indicators = JS.Fin q ->
          ((q < 25)%Q -> types signals = ["STRONG BUY"])
          /\ ((25 <= q < 35)%Q -> types signals = ["BUY"])
          /\ ((75 < q)%Q -> types signals = ["STRONG SELL"])
          /\ ((65 < q <= 75)%Q -> types signals = ["SELL"])
          /\ ((35 <= q <= 65)%Q -> signals = []))
    /\ (exists s24_9 s30 s65_1 s76,
          rsiDivergenceStrategy data (with_rsi (frac 249 10)) = Ok s24_9
          /\ types s24_9 = ["STRONG BUY"]
          /\ rsiDivergenceStrategy data (with_rsi (num 30)) = Ok s30
          /\ types s30 = ["BUY"]
          /\ rsiDivergenceStrategy data (with_rsi (num 65)) = Ok []
          /\ rsiDivergenceStrategy data (with_rsi (frac 651 10)) = Ok s65_1
          /\ types s65_1 = ["SELL"]
          /\ rsiDivergenceStrategy data (with_rsi (num 76)) = Ok s76
          /\ types s76 = ["STRONG SELL"]).
Proof.
  intro Hne.
  destruct (rsi_run data indicators Hne) as (signals & Hrun & Hlen & Htypes).
  exists signals. repeat apply conj; try assumption.
  - intros q Hq. rewrite Htypes, Hq.
    destruct (spec_rsi_types_Fin q) as (H1 & H2 & H3 & H4 & H5).
    repeat apply conj; try assumption.
    intro H. specialize (H5 H). rewrite Hq, H5 in Htypes.
    destruct signals; [reflexivity|discriminate].
  - destruct (rsi_run data (with_rsi (frac 249 10)) Hne) as (s1 & R1 & _ & T1).
    destruct (rsi_run data (with_rsi (num 30)) Hne) as (s2 & R2 & _ & T2).
    destruct (rsi_run data (with_rsi (num 65)) Hne) as (s3 & R3 & _ & T3).
    destruct (rsi_run data (with_rsi (frac 651 10)) Hne) as (s4 & R4 & _ & T4).
    destruct (rsi_run data (with_rsi (num 76)) Hne) as (s5 & R5 & _ & T5).
    exists s1, s2, s4, s5.
    assert (s3 = []) as ->
      by (destruct s3; [reflexivity|discriminate]).
    repeat apply conj; assumption.
Qed.

(** C6: the MACD strategy gives BUY exactly when the MACD line is above
    the signal line and the histogram is positive, SELL exactly when the
    line is below the signal line and the histogram is negative, and
    nothing in every other case, such as a line above the signal with a
    histogram that is not positive. *)
Theorem macd_strategy_gating (data : list Candle.t) (indicators : Indicators.t) :
  let macd := Indicators.macd indicators in
  let bullish :=
    ((MACD.MACD macd >? MACD.signal macd) && (MACD.histogram macd >? num 0))%js in
  let bearish :=
    ((MACD.MACD macd <? MACD.signal macd) && (MACD.histogram macd <? num 0))%js in
  let signals := macdCrossoverStrategy data indicators in
  (types signals = ["BUY"] <-> bullish = true)
  /\ (types signals = ["SELL"] <-> bearish = true)
  /\ (signals = [] <-> bullish = false /\ bearish = false)
  /\ (length signals <= 1)%nat
  /\ types (macdCrossoverStrategy data (with_macd (num 1) (frac 1 2) (frac 1 2)))
     = ["BUY"]
  /\ types (macdCrossoverStrategy data (with_macd (frac 1 2) (num 1) (frac (-1) 2)))
     = ["SELL"]
  /\ macdCrossoverStrategy data (with_macd (num 1) (frac 1 2) (frac (-1) 10)) = [].
Proof.
  intros macd bullish bearish signals.
  assert (Hex : bullish = true -> bearish = false).
  { unfold bullish, bearish, JS.gt. intro H.
    apply andb_true_iff in H as [H _]. apply lt_asym in H. now rewrite H. }
  subst signals. unfold macdCrossoverStrategy.
  fold macd. fold bullish. fold bearish.
  destruct bullish, bearish; try (specialize (Hex eq_refl); discriminate);
    simpl; repeat apply conj; try reflexivity; try lia;
    try (intros; discriminate); try (intros [? ?]; discriminate).
Qed.

(** With 21 candles or more the array ends with the previous and the
    current candle, and the last 20 candles end with them too. *)
Lemma last_two (data : list Candle.t) :
  (21 <= length data)%nat ->
  exists prefix window' previous current,
    data = (prefix ++ window' ++ [previous; current])%list
    /\ length window' = 18%nat
    /\ JS.slice_last 20 data = (window' ++ [previous; current])%list
    /\ nth_error data (length data - 1) = Some current
    /\ nth_error data (length data - 2) = Some previous.
Proof.
  intro Hlen.
  destruct (slice_last_app 20 data) as (prefix & Hsplit & Hwin).
  rewrite Nat.min_l in Hwin by lia.
  remember (JS.slice_last 20 data) as window eqn:Ew. clear Ew.
  destruct window as [|current window] using rev_ind; [discriminate|]. clear IHwindow.
  destruct window as [|previous window] using rev_ind;
    [discriminate|]. clear IHwindow.
  rewrite <- app_assoc in Hwin, Hsplit. simpl in Hwin, Hsplit.
  rewrite length_app in Hwin. simpl in Hwin.
  exists prefix, window, previous, current.
  assert (Hl : length data = (length prefix + length window + 2)%nat).
  { rewrite Hsplit at 1. rewrite !length_app. simpl. lia. }
  repeat apply conj.
  - exact Hsplit.
  - lia.
  - now rewrite <- app_assoc.
  - rewrite Hl, Hsplit, app_assoc, nth_error_app2; rewrite ?length_app; [|lia].
    replace (_ - _)%nat with 1%nat by lia. reflexivity.
  - rewrite Hl, Hsplit, app_assoc, nth_error_app2; rewrite ?length_app; [|lia].
    replace (_ - _)%nat with 0%nat by lia. reflexivity.
Qed.

Lemma rsi_strategy_thresholds_witness :
  let data := [Candle.mk (Date 0) (num 100) (num 101) (num 99) (num 100) (num 5)] in
  data <> []
  /\ exists signals,
       rsiDivergenceStrategy data (with_rsi (frac 651 10)) = Ok signals
       /\ types signals = ["SELL"].
Proof.
  intro data.
  assert (Hne : data <> []) by discriminate.
  split; [exact Hne|].
  destruct (rsi_strategy_thresholds data (with_rsi (frac 651 10)) Hne)
    as (signals & Hrun & _ & Htypes & _).
  exists signals. split; [exact Hrun|].
  rewrite Htypes. reflexivity.
Defined.



(** The strategy on inputs where rounding decides, closes 100 then 103:
    with volumes 7, 19 times 3 and 6.333333333333334 the volume is not
    above twice the rounded mean, although 9 times it is above the sum of
    the 19 volumes before; with 7, 2^53, 18 times 1 and 1000799917193445
    it is above twice the rounded mean.  A close of [-0] before the
    current candle makes the change of a rising price minus infinity. *)
Lemma volume_breakout_binary64 :
  volumeBreakoutStrategy
    (volume_window (num 7 :: repeat (num 3) 19) (num 100)
       (bar (num 103) d6_333333333333334)) = Ok []
  /\ (exists s,
        volumeBreakoutStrategy
          (volume_window (num 7 :: num 9007199254740992 :: repeat (num 1) 18)
             (num 100) (bar (num 103) (num 1000799917193445))) = Ok s
        /\ types s = ["STRONG BUY"])
  /\ volumeBreakoutStrategy
       (volume_window (num 7 :: repeat (num 100) 19) (num 100)
          (bar (num 103) d211_11111111111111)) = Ok []
  /\ (exists s,
        volumeBreakoutStrategy
          (volume_window (num 7 :: repeat d57_3 19) (num 100)
             (bar (num 103) d120_96666666666664)) = Ok s
        /\ types s = ["STRONG BUY"])
  /\ (exists s,
        volumeBreakoutStrategy
          (volume_window (num 7 :: repeat (num 10) 19) JS.NZero
             (bar (num 5) (num 1000))) = Ok s
        /\ types s = ["STRONG SELL"]
        /\ priceChange (bar (num 5) (num 1000)) (bar JS.NZero (num 10)) = JS.NInf).
Proof.
  split; [vm_compute; reflexivity|].
  split; [eexists; split; vm_compute; reflexivity|].
  split; [vm_compute; reflexivity|].
  split; [eexists; split; vm_compute; reflexivity|].
  eexists. split; [|split]; vm_compute; reflexivity.
Qed.

(** ** The indicator engine *)

Lemma or_else_empty {A : Type} `{Truthy A} (d : A) :
  or_else (JS.last_elem (@nil A)) d = d.
Proof. reflexivity. Qed.

Lemma throws_Ok {A : Type} (a : A) : ~ throws (Ok a).
Proof. intros [m Hm]. discriminate. Qed.

Lemma throws_Throw {A : Type} (m : string) : throws (@Throw A m).
Proof. now exists m. Qed.

(** C7: [calculateIndicators] fails exactly when one of the library calls
    throws, whatever the length of the input; when it returns, every
    indicator whose series is empty holds its zero default: 0 for RSI, the
    SMAs, the EMAs and ATR, zero-filled records for MACD, the Bollinger
    bands and the stochastic oscillator. *)
Theorem calculateIndicators_degrades (ti : TI.Lib) (data : list Candle.t) :
  (calculateIndicators ti data = None <-> ti_throws ti data)
  /\ (forall snapshot, calculateIndicators ti data = Some snapshot ->
        (rsi_series ti data = Ok [] -> Indicators.rsi snapshot = num 0)
        /\ (macd_series ti data = Ok [] ->
            Indicators.macd snapshot = MACD.mk (num 0) (num 0) (num 0))
        /\ (bb_series ti data = Ok [] ->
            Indicators.bb snapshot = BB.mk (num 0) (num 0) (num 0))
        /\ (sma_series ti 20 data = Ok [] -> Indicators.sma20 snapshot = num 0)
        /\ (sma_series ti 50 data = Ok [] -> Indicators.sma50 snapshot = num 0)
        /\ (sma_series ti 200 data = Ok [] -> Indicators.sma200 snapshot = num 0)
        /\ (ema_series ti 12 data = Ok [] -> Indicators.ema12 snapshot = num 0)
        /\ (ema_series ti 26 data = Ok [] -> Indicators.ema26 snapshot = num 0)
        /\ (stoch_series ti data = Ok [] ->
            Indicators.stoch snapshot = Stoch.mk (num 0) (num 0))
        /\ (atr_series ti data = Ok [] -> Indicators.atr snapshot = num 0)).
Proof.
  unfold calculateIndicators, ti_throws.
  destruct (rsi_series ti data) as [rsi|m1];
    [|split; [split; [intros _; left; apply throws_Throw|reflexivity]|discriminate]].
  destruct (macd_series ti data) as [macd|m2];
    [|split; [split; [intros _; do 1 right; left; apply throws_Throw|reflexivity]
             |discriminate]].
  destruct (bb_series ti data) as [bb|m3];
    [|split; [split; [intros _; do 2 right; left; apply throws_Throw|reflexivity]
             |discriminate]].
  destruct (sma_series ti 20 data) as [sma20|m4];
    [|split; [split; [intros _; do 3 right; left; apply throws_Throw|reflexivity]
             |discriminate]].
  destruct (sma_series ti 50 data) as [sma50|m5];
    [|split; [split; [intros _; do 4 right; left; apply throws_Throw|reflexivity]
             |discriminate]].
  destruct (sma_series ti 200 data) as [sma200|m6];
    [|split; [split; [intros _; do 5 right; left; apply throws_Throw|reflexivity]
             |discriminate]].
  destruct (ema_series ti 12 data) as [ema12|m7];
    [|split; [split; [intros _; do 6 right; left; apply throws_Throw|reflexivity]
             |discriminate]].
  destruct (ema_series ti 26 data) as [ema26|m8];
    [|split; [split; [intros _; do 7 right; left; apply throws_Throw|reflexivity]
             |discriminate]].
  destruct (stoch_series ti data) as [stoch|m9];
    [|split; [split; [intros _; do 8 right; left; apply throws_Throw|reflexivity]
             |discriminate]].
  destruct (atr_series ti data) as [atr|m10];
    [|split; [split; [intros _; do 9 right; apply throws_Throw|reflexivity]
             |discriminate]].
  cbn [bind try_or_null]. split.
  - split; [discriminate|].
    intro H. exfalso.
    repeat (destruct H as [H|H]; [now apply throws_Ok in H|]).
    now apply throws_Ok in H.
  - intros snapshot [= <-]. cbn.
    repeat apply conj; intros [= ->]; reflexivity.
Qed.

(** ** The orchestrator *)

Lemma macd_length (data : list Candle.t) (indicators : Indicators.t) :
  (length (macdCrossoverStrategy data indicators) <= 1)%nat.
Proof.
  unfold macdCrossoverStrategy.
  destruct (_ && _); [simpl; lia|].
  destruct (_ && _); simpl; lia.
Qed.

Lemma bb_run (data : list Candle.t) (indicators : Indicators.t) :
  data <> [] ->
  exists signals,
    bollingerBandsStrategy data indicators = Ok signals
    /\ (length signals <= 1)%nat.
Proof.
  intro Hne. destruct (last_elem_nonempty data Hne) as [latest Hlast].
  unfold bollingerBandsStrategy. rewrite Hlast. cbn [defined bind].
  destruct (_ <? _)%js; [eexists; split; [reflexivity|simpl; lia]|].
  destruct (_ >? _)%js; eexists; split; try reflexivity; simpl; lia.
Qed.

Lemma volume_run (data : list Candle.t) :
  exists signals,
    volumeBreakoutStrategy data = Ok signals /\ (length signals <= 1)%nat.
Proof.
  unfold volumeBreakoutStrategy.
  destruct (length data <? 21)%nat eqn:Hlen.
  { exists []. split; [reflexivity|simpl; lia]. }
  apply Nat.ltb_ge in Hlen.
  destruct (last_two data Hlen)
    as (prefix & window' & previous & current & _ & _ & _ & Hcur & Hprev).
  rewrite Hcur, Hprev. cbn [defined bind].
  eexists. split; [reflexivity|].
  destruct (Candle.volume current >? _)%js; [|simpl; lia].
  destruct (_ >? num 2)%js; [simpl; lia|].
  destruct (_ <? num (-2))%js; simpl; lia.
Qed.

(** Once the candles are fetched, there are 200 of them or more and the
    indicators are computed, no later step throws. *)
Lemma analyzeCoin_body_runs (exchange : Exchange) (ti : TI.Lib) (now : Z)
    (this : Bot.t) (symbol : string) (data : list Candle.t)
    (indicators : Indicators.t) :
  fetchOHLCV exchange symbol default_timeframe default_limit = Some data ->
  (200 <= length data)%nat ->
  calculateIndicators ti data = Some indicators ->
  exists rsiSignals bbSignals volumeSignals latest,
    rsiDivergenceStrategy data indicators = Ok rsiSignals
    /\ (length rsiSignals <= 1)%nat
    /\ bollingerBandsStrategy data indicators = Ok bbSignals
    /\ (length bbSignals <= 1)%nat
    /\ volumeBreakoutStrategy data = Ok volumeSignals
    /\ (length volumeSignals <= 1)%nat
    /\ JS.last_elem data = Some latest
    /\ analyzeCoin_body exchange ti now this symbol
       = Ok (assemble symbol now data indicators latest
               (rsiSignals ++ macdCrossoverStrategy data indicators
                ++ bbSignals ++ volumeSignals)%list).
Proof.
  intros Hfetch Hlen Hind.
  assert (Hne : data <> []) by (destruct data; [simpl in Hlen; lia|discriminate]).
  destruct (rsi_run data indicators Hne) as (rsiSignals & Hrsi & Lrsi & _).
  destruct (bb_run data indicators Hne) as (bbSignals & Hbb & Lbb).
  destruct (volume_run data) as (volumeSignals & Hvol & Lvol).
  destruct (last_elem_nonempty data Hne) as [latest Hlast].
  exists rsiSignals, bbSignals, volumeSignals, latest.
  repeat apply conj; try assumption.
  unfold analyzeCoin_body. rewrite Hfetch.
  apply Nat.ltb_ge in Hlen. rewrite Hlen, Hind, Hrsi, Hbb, Hvol, Hlast.
  reflexivity.
Qed.

Lemma fetchOHLCV_null (exchange : Exchange) (symbol timeframe : string) (limit : Z) :
  fetchOHLCV exchange symbol timeframe limit = None
  <-> throws (exchange symbol timeframe None limit).
Proof.
  unfold fetchOHLCV. destruct (exchange symbol timeframe None limit) as [rows|m].
  - split; [discriminate|]. intro H. now apply throws_Ok in H.
  - split; [intros _; apply throws_Throw|reflexivity].
Qed.

Lemma fetchOHLCV_length (exchange : Exchange) (symbol timeframe : string)
    (limit : Z) (rows : list ohlcv_row) :
  exchange symbol timeframe None limit = Ok rows ->
  exists data,
    fetchOHLCV exchange symbol timeframe limit = Some data
    /\ length data = length rows.
Proof.
  intro H. unfold fetchOHLCV. rewrite H. cbn [bind try_or_null].
  eexists. split; [reflexivity|]. apply length_map.
Qed.

(** C3: the promise of [analyzeCoin] is never rejected, and it resolves
    to [null] when the exchange throws, when fewer than 200 candles come
    back and when the indicator engine fails; it resolves to [null] in no
    other case, so a result is always a complete record. *)
Theorem analyzeCoin_no_result (exchange : Exchange) (ti : TI.Lib) (now : Z)
    (this : Bot.t) (symbol : string) :
  let answer := fst (analyzeCoin exchange ti now this symbol) in
  (exists outcome, answer = Ok outcome)
  /\ (throws (exchange symbol default_timeframe None default_limit) ->
      answer = Ok None)
  /\ (forall rows,
        exchange symbol default_timeframe None default_limit = Ok rows ->
        (length rows < 200)%nat -> answer = Ok None)
  /\ (forall data,
        fetchOHLCV exchange symbol default_timeframe default_limit = Some data ->
        calculateIndicators ti data = None -> answer = Ok None)
  /\ (answer = Ok None <-> analysis_fails exchange ti symbol).
Proof.
  cbn [analyzeCoin fst].
  assert (Hfail : analysis_fails exchange ti symbol ->
                  analyzeCoin_body exchange ti now this symbol
                  = Throw "Insufficient data for analysis"
                  \/ analyzeCoin_body exchange ti now this symbol
                     = Throw "Failed to calculate indicators").
  { unfold analyzeCoin_body. intros [H|(data & H & [Hlen|Hind])]; rewrite H.
    - now left.
    - apply Nat.ltb_lt in Hlen. rewrite Hlen. now left.
    - destruct (length data <? 200)%nat; [now left|]. rewrite Hind. now right. }
  assert (Hnull : analysis_fails exchange ti symbol ->
                  Ok (try_or_null (analyzeCoin_body exchange ti now this symbol))
                  = @Ok (option Analysis.t) None).
  { intro H. destruct (Hfail H) as [-> | ->]; reflexivity. }
  repeat apply conj.
  - eexists. reflexivity.
  - intro H. apply Hnull. left. now apply fetchOHLCV_null.
  - intros rows Hrows Hlen. apply Hnull. right.
    destruct (fetchOHLCV_length _ _ _ _ _ Hrows) as (data & Hdata & Hl).
    exists data. split; [exact Hdata|]. left. lia.
  - intros data Hdata Hind. apply Hnull. right. exists data. auto.
  - intro H.
    destruct (fetchOHLCV exchange symbol default_timeframe default_limit)
      as [data|] eqn:Hfetch; [|now left].
    right. exists data. split; [exact Hfetch|].
    destruct (Nat.lt_ge_cases (length data) 200) as [Hlen|Hlen]; [now left|].
    right. destruct (calculateIndicators ti data) as [indicators|] eqn:Hind;
      [|reflexivity].
    destruct (analyzeCoin_body_runs exchange ti now this symbol data indicators
                Hfetch Hlen Hind) as (? & ? & ? & ? & _ & _ & _ & _ & _ & _ & _ & Hrun).
    rewrite Hrun in H. discriminate.
  - exact Hnull.
Qed.

(** A result of [analyzeCoin] comes from a fetched window of 200 candles
    or more, its indicator snapshot and the signals of the strategies. *)
Lemma analyzeCoin_body_inv (exchange : Exchange) (ti : TI.Lib) (now : Z)
    (this : Bot.t) (symbol : string) (r : Analysis.t) :
  analyzeCoin_body exchange ti now this symbol = Ok r ->
  exists data indicators rsiSignals bbSignals volumeSignals latest,
    fetchOHLCV exchange symbol default_timeframe default_limit = Some data
    /\ (200 <= length data)%nat
    /\ calculateIndicators ti data = Some indicators
    /\ (length rsiSignals <= 1)%nat
    /\ (length bbSignals <= 1)%nat
    /\ (length volumeSignals <= 1)%nat
    /\ JS.last_elem data = Some latest
    /\ r = assemble symbol now data indicators latest
             (rsiSignals ++ macdCrossoverStrategy data indicators
              ++ bbSignals ++ volumeSignals)%list.
Proof.
  intro H.
  destruct (fetchOHLCV exchange symbol default_timeframe default_limit)
    as [data|] eqn:Hfetch;
    [|unfold analyzeCoin_body in H; rewrite Hfetch in H; discriminate].
  destruct (Nat.lt_ge_cases (length data) 200) as [Hlen|Hlen].
  { apply Nat.ltb_lt in Hlen. unfold analyzeCoin_body in H.
    rewrite Hfetch, Hlen in H. discriminate. }
  destruct (calculateIndicators ti data) as [indicators|] eqn:Hind.
  2:{ apply Nat.ltb_ge in Hlen. unfold analyzeCoin_body in H.
      rewrite Hfetch, Hlen, Hind in H. discriminate. }
  destruct (analyzeCoin_body_runs exchange ti now this symbol data indicators
              Hfetch Hlen Hind)
    as (rsiSignals & bbSignals & volumeSignals & latest
        & _ & Lrsi & _ & Lbb & _ & Lvol & Hlast & Hrun).
  rewrite Hrun in H. injection H as <-.
  exists data, indicators, rsiSignals, bbSignals, volumeSignals, latest.
  repeat apply conj; try assumption; reflexivity.
Qed.

Lemma analyzeSentiment_score (signals : list Signal.t) :
  Sentiment.score (analyzeSentiment signals) = spec_score signals.
Proof. unfold analyzeSentiment. simpl. now rewrite fold_score_step. Qed.

(** C9: each strategy returns at most one signal, so a result of
    [analyzeCoin] carries at most 4 signals and a sentiment score between
    -12 and 12. *)
Theorem signals_bounded (exchange : Exchange) (ti : TI.Lib) (now : Z)
    (this : Bot.t) (symbol : string) (r : Analysis.t) :
  fst (analyzeCoin exchange ti now this symbol) = Ok (Some r) ->
  (length (Analysis.signals r) <= 4)%nat
  /\ -12 <= Sentiment.score (Analysis.sentiment r) <= 12
  /\ (forall data indicators,
        match rsiDivergenceStrategy data indicators with
        | Ok signals => (length signals <= 1)%nat
        | Throw _ => data = []
        end
        /\ (length (macdCrossoverStrategy data indicators) <= 1)%nat
        /\ match bollingerBandsStrategy data indicators with
           | Ok signals => (length signals <= 1)%nat
           | Throw _ => data = []
           end
        /\ match volumeBreakoutStrategy data with
           | Ok signals => (length signals <= 1)%nat
           | Throw _ => False
           end).
Proof.
  cbn [analyzeCoin fst]. intro H.
  destruct (analyzeCoin_body exchange ti now this symbol) as [r'|m] eqn:Hbody;
    [|discriminate].
  injection H as ->.
  apply analyzeCoin_body_inv in Hbody
    as (data & indicators & rsiSignals & bbSignals & volumeSignals & latest
        & _ & _ & _ & Lrsi & Lbb & Lvol & _ & ->).
  pose proof (macd_length data indicators) as Lmacd.
  assert (Hlen : (length (rsiSignals ++ macdCrossoverStrategy data indicators
                          ++ bbSignals ++ volumeSignals) <= 4)%nat).
  { rewrite !length_app. lia. }
  cbn [assemble Analysis.signals Analysis.sentiment].
  split; [exact Hlen|]. split.
  - rewrite analyzeSentiment_score.
    pose proof (spec_score_bounds
                  (rsiSignals ++ macdCrossoverStrategy data indicators
                   ++ bbSignals ++ volumeSignals)%list). lia.
  - intros data' indicators'. repeat apply conj.
    + destruct data' as [|c data'].
      * reflexivity.
      * destruct (rsi_run (c :: data') indicators') as (s & -> & L & _);
          [discriminate|exact L].
    + apply macd_length.
    + destruct data' as [|c data'].
      * reflexivity.
      * destruct (bb_run (c :: data') indicators') as (s & -> & L);
          [discriminate|exact L].
    + destruct (volume_run data') as (s & -> & L). exact L.
Qed.

(** The answer depends on the exchange through the fetched window only,
    and on the clock through the timestamp only. *)
Lemma analyzeCoin_of_window (ti : TI.Lib) (exchange1 exchange2 : Exchange)
    (now1 now2 : Z) (bot1 bot2 : Bot.t) (symbol : string) :
  fetchOHLCV exchange1 symbol default_timeframe default_limit
  = fetchOHLCV exchange2 symbol default_timeframe default_limit ->
  without_timestamp (fst (analyzeCoin exchange1 ti now1 bot1 symbol))
  = without_timestamp (fst (analyzeCoin exchange2 ti now2 bot2 symbol)).
Proof.
  intro Hwindow. cbn [analyzeCoin fst]. unfold analyzeCoin_body.
  rewrite Hwindow.
  destruct (fetchOHLCV exchange2 symbol default_timeframe default_limit)
    as [data|]; [|reflexivity].
  destruct (length data <? 200)%nat; [reflexivity|].
  destruct (calculateIndicators ti data) as [indicators|]; [|reflexivity].
  destruct (rsiDivergenceStrategy data indicators); [|reflexivity].
  destruct (bollingerBandsStrategy data indicators); [|reflexivity].
  destruct (volumeBreakoutStrategy data); [|reflexivity].
  destruct (JS.last_elem data); reflexivity.
Qed.

(** C8: the answer of [analyzeCoin], its timestamp apart, is a function
    of the candle window alone: two runs that fetch the same window agree,
    whatever the fields of the bot and the clock, and the bot object is
    the same after the run as before.  The indicator snapshot is a
    function of the close, high and low series of the window. *)
Theorem analysis_deterministic (ti : TI.Lib) (exchange1 exchange2 : Exchange)
    (now1 now2 : Z) (bot1 bot2 : Bot.t) (symbol : string) :
  fetchOHLCV exchange1 symbol default_timeframe default_limit
  = fetchOHLCV exchange2 symbol default_timeframe default_limit ->
  without_timestamp (fst (analyzeCoin exchange1 ti now1 bot1 symbol))
  = without_timestamp (fst (analyzeCoin exchange2 ti now2 bot2 symbol))
  /\ snd (analyzeCoin exchange1 ti now1 bot1 symbol) = bot1
  /\ snd (analyzeCoin exchange2 ti now2 bot2 symbol) = bot2
  /\ (forall data1 data2,
        map Candle.close data1 = map Candle.close data2 ->
        map Candle.high data1 = map Candle.high data2 ->
        map Candle.low data1 = map Candle.low data2 ->
        calculateIndicators ti data1 = calculateIndicators ti data2).
Proof.
  intro Hwindow. repeat apply conj; try reflexivity.
  - now apply analyzeCoin_of_window.
  - intros data1 data2 Hc Hh Hl.
    unfold calculateIndicators, rsi_series, macd_series, bb_series, sma_series,
      ema_series, stoch_series, atr_series.
    now rewrite Hc, Hh, Hl.
Qed.

(** ** The watchlist *)

Lemma array_includes_In (a : list string) (x : string) :
  array_includes a x = true <-> In x a.
Proof.
  unfold array_includes. rewrite existsb_exists. split.
  - intros (y & Hy & E). apply String.eqb_eq in E. now subst.
  - intro H. exists x. split; [exact H|apply String.eqb_refl].
Qed.

Lemma add_present (symbol : string) (bot : Bot.t) :
  In symbol (Bot.watchlist bot) -> watchlist_add symbol bot = (bot, Bot.watchlist bot).
Proof.
  intro H. apply array_includes_In in H.
  unfold watchlist_add. now rewrite H.
Qed.

Lemma add_absent (symbol : string) (bot : Bot.t) :
  ~ In symbol (Bot.watchlist bot) ->
  Bot.watchlist (fst (watchlist_add symbol bot))
  = (Bot.watchlist bot ++ [symbol])%list.
Proof.
  intro H. unfold watchlist_add.
  destruct (array_includes (Bot.watchlist bot) symbol) eqn:E; [|reflexivity].
  apply array_includes_In in E. contradiction.
Qed.

Lemma add_NoDup (symbol : string) (bot : Bot.t) :
  NoDup (Bot.watchlist bot) -> NoDup (Bot.watchlist (fst (watchlist_add symbol bot))).
Proof.
  intro H. destruct (in_dec string_dec symbol (Bot.watchlist bot)) as [Hin|Hout].
  - now rewrite add_present.
  - rewrite add_absent by assumption.
    apply NoDup_app; [exact H|repeat constructor; intros []|].
    intros x Hx [<-|[]]. contradiction.
Qed.

Lemma delete_In (symbol s : string) (bot : Bot.t) :
  In s (Bot.watchlist (fst (watchlist_delete symbol bot)))
  <-> In s (Bot.watchlist bot) /\ s <> symbol.
Proof.
  cbn. rewrite filter_In, negb_true_iff. split; intros [H1 H2]; split; auto.
  - now apply String.eqb_neq.
  - now apply String.eqb_neq.
Qed.

Lemma delete_NoDup (symbol : string) (bot : Bot.t) :
  NoDup (Bot.watchlist bot) ->
  NoDup (Bot.watchlist (fst (watchlist_delete symbol bot))).
Proof. cbn. apply NoDup_filter. Qed.

Lemma serve_NoDup (requests : list request) (bot : Bot.t) :
  NoDup (Bot.watchlist bot) -> NoDup (Bot.watchlist (serve requests bot)).
Proof.
  unfold serve. revert bot.
  induction requests as [|r requests IH]; intros bot H; [exact H|].
  simpl. apply IH. destruct r; [now apply add_NoDup|now apply delete_NoDup].
Qed.

(** C10: adding a symbol that is on the watchlist changes nothing, so
    adding twice is adding once and no sequence of requests puts a symbol
    on the list twice; deleting a symbol leaves the other symbols, in
    their order, and only them. *)
Theorem watchlist_set_semantics (symbol : string) (bot : Bot.t) :
  (In symbol (Bot.watchlist bot) -> fst (watchlist_add symbol bot) = bot)
  /\ fst (watchlist_add symbol (fst (watchlist_add symbol bot)))
     = fst (watchlist_add symbol bot)
  /\ In symbol (Bot.watchlist (fst (watchlist_add symbol bot)))
  /\ (forall requests, NoDup (Bot.watchlist (serve requests Bot.new)))
  /\ (forall s, In s (Bot.watchlist (fst (watchlist_delete symbol bot)))
                <-> In s (Bot.watchlist bot) /\ s <> symbol)
  /\ Bot.watchlist (fst (watchlist_delete symbol bot))
     = filter (fun s => if string_dec s symbol then false else true)
         (Bot.watchlist bot).
Proof.
  assert (Hin : In symbol (Bot.watchlist (fst (watchlist_add symbol bot)))).
  { destruct (in_dec string_dec symbol (Bot.watchlist bot)) as [H|H].
    - now rewrite add_present.
    - rewrite add_absent by assumption. apply in_or_app. right. now left. }
  repeat apply conj.
  - intro H. now rewrite add_present.
  - now rewrite (add_present symbol (fst (watchlist_add symbol bot))).
  - exact Hin.
  - intro requests. apply serve_NoDup. constructor.
  - intro s. apply delete_In.
  - cbn. apply filter_ext. intro s.
    destruct (string_dec s symbol) as [->|Hne].
    + now rewrite String.eqb_refl.
    + apply String.eqb_neq in Hne. now rewrite Hne.
Qed.

(** ** Support and resistance *)

(** The comparison functions of the two sorts order by the values. *)
Lemma Qis0_eq (y : Q) : JS.Qis0 y = true -> (y == 0)%Q.
Proof.
  unfold JS.Qis0, Qeq. intro H. apply Z.eqb_eq in H. rewrite H. reflexivity.
Qed.

(** Case analysis on the comparisons of rationals in the goal. *)
Ltac q_cases :=
  repeat match goal with
         | |- context [JS.Qltb ?a ?b] =>
           let E := fresh "E" in destruct (JS.Qltb a b) eqn:E
         end;
  try reflexivity; to_Q; exfalso; lra.

Lemma sub_gt_zero (a b : jsnum) : ((a - b) >? JS.zero)%js = (a >? b)%js.
Proof.
  unfold JS.gt, JS.sub, JS.zero.
  destruct a as [x| | | |], b as [y| | | |]; cbn [JS.neg];
    try (destruct (JS.Qis0 y) eqn:Ey; [apply Qis0_eq in Ey|]);
    cbn [JS.add JS.lt JS.value]; try reflexivity; q_cases.
Qed.

(** *** The sign of a binary64 difference

    A finite double is a multiple of 2^-1074 ([is_double_value]).  The
    difference of two doubles, rounded, is above 0 exactly when the exact
    difference is: rounding does not take a non-zero multiple of 2^-1074
    to zero. *)

Lemma nearest_even_lower (n d : Z) :
  (0 < d)%Z -> (d <= n)%Z -> (1 <= JS.nearest_even n d)%Z.
Proof.
  intros Hd Hn. unfold JS.nearest_even.
  assert (1 <= n / d)%Z by (apply Z.div_le_lower_bound; lia).
  destruct (2 * (n mod d) ?= d)%Z; [destruct (Z.even (n / d))| |]; lia.
Qed.

Lemma nearest_even_nonneg (n d : Z) :
  (0 <= n)%Z -> (0 < d)%Z -> (0 <= JS.nearest_even n d)%Z.
Proof.
  intros Hn Hd. unfold JS.nearest_even.
  assert (0 <= n / d)%Z by (apply Z.div_pos; lia).
  destruct (2 * (n mod d) ?= d)%Z; [destruct (Z.even (n / d))| |]; lia.
Qed.

Lemma log2_floor_lower (n d : positive) :
  if (0 <=? JS.log2_floor n d)%Z
  then (Zpos d * 2 ^ JS.log2_floor n d <= Zpos n)%Z
  else (Zpos d <= Zpos n * 2 ^ (- JS.log2_floor n d))%Z.
Proof.
  unfold JS.log2_floor.
  pose proof (Z.log2_spec (Zpos n) eq_refl) as [Hn _].
  pose proof (Z.log2_spec (Zpos d) eq_refl) as [_ Hd].
  pose proof (Z.log2_nonneg (Zpos n)) as Ln.
  pose proof (Z.log2_nonneg (Zpos d)) as Ld.
  remember (Z.log2 (Zpos n)) as ln eqn:Eln. clear Eln.
  remember (Z.log2 (Zpos d)) as ld eqn:Eld. clear Eld.
  rewrite Z.pow_succ_r in Hd by assumption.
  destruct (Z.leb_spec 0 (ln - ld)) as [He|He].
  - destruct (Z.leb_spec (Zpos d * 2 ^ (ln - ld)) (Zpos n)) as [Hc|Hc].
    + destruct (Z.leb_spec 0 (ln - ld)); [exact Hc|lia].
    + destruct (Z.leb_spec 0 (ln - ld - 1)) as [He'|He'].
      * assert (E : (2 ^ ln = 2 * 2 ^ ld * 2 ^ (ln - ld - 1))%Z).
        { rewrite <- Z.pow_succ_r by lia. rewrite <- Z.pow_add_r by lia.
          f_equal. lia. }
        assert (0 < 2 ^ (ln - ld - 1))%Z by (apply Z.pow_pos_nonneg; lia).
        nia.
      * assert (ln = ld) by lia. subst ln.
        replace (- (ld - ld - 1))%Z with 1%Z by lia.
        change (2 ^ 1)%Z with 2%Z. lia.
  - destruct (Z.leb_spec (Zpos d) (Zpos n * 2 ^ (- (ln - ld)))) as [Hc|Hc].
    + destruct (Z.leb_spec 0 (ln - ld)); [lia|exact Hc].
    + destruct (Z.leb_spec 0 (ln - ld - 1)); [lia|].
      assert (E : (2 * 2 ^ ld = 2 ^ ln * 2 ^ (- (ln - ld - 1)))%Z).
      { rewrite <- Z.pow_succ_r by lia. rewrite <- Z.pow_add_r by lia.
        f_equal. lia. }
      assert (0 < 2 ^ (- (ln - ld - 1)))%Z by (apply Z.pow_pos_nonneg; lia).
      nia.
Qed.

Lemma pow2_le (a b : Z) : (0 <= a <= b)%Z -> (2 ^ a <= 2 ^ b)%Z.
Proof. intro H. apply Z.pow_le_mono_r; lia. Qed.

Lemma round_magnitude_m (n d : positive) :
  (Zpos d <= Zpos n * 2 ^ 1074)%Z ->
  let e := JS.log2_floor n d in
  let k := Z.max (e - 52) (-1074) in
  (1 <= (if (0 <=? k)%Z then JS.nearest_even (Zpos n) (Zpos d * 2 ^ k)
         else JS.nearest_even (Zpos n * 2 ^ (- k)) (Zpos d)))%Z.
Proof.
  intros Hgrid e k.
  pose proof (log2_floor_lower n d) as Hlow. fold e in Hlow.
  destruct (Z.leb_spec 0 k) as [Hk|Hk].
  - assert (He : (0 <= e)%Z) by lia.
    destruct (Z.leb_spec 0 e); [|lia].
    assert (0 < 2 ^ k)%Z by (apply Z.pow_pos_nonneg; lia).
    pose proof (pow2_le k e ltac:(lia)).
    apply nearest_even_lower; nia.
  - apply nearest_even_lower; [lia|].
    destruct (Z.max_spec (e - 52) (-1074)) as [[Hlt Ek]|[Hge Ek]]; fold k in Ek.
    + rewrite Ek. exact Hgrid.
    + destruct (Z.leb_spec 0 e).
      * assert (0 < 2 ^ e)%Z by (apply Z.pow_pos_nonneg; lia).
        assert (1 <= 2 ^ (- k))%Z
          by (change 1%Z with (2 ^ 0)%Z; apply pow2_le; lia).
        nia.
      * pose proof (pow2_le (- e) (- k) ltac:(lia)). nia.
Qed.

Lemma round_magnitude_pos (n d : positive) :
  (Zpos d <= Zpos n * 2 ^ 1074)%Z ->
  (JS.zero <? JS.round_magnitude false n d)%js = true.
Proof.
  intro Hgrid. pose proof (round_magnitude_m n d Hgrid) as Hm.
  unfold JS.round_magnitude. cbv zeta in Hm.
  set (k := Z.max (JS.log2_floor n d - 52) (-1074)) in *.
  set (m := if (0 <=? k)%Z then _ else _) in *.
  destruct (Z.eqb_spec m 0); [lia|].
  destruct (1024 <=? Z.log2 m + k)%Z; [reflexivity|].
  destruct (Z.leb_spec 0 k) as [Hk|Hk]; cbn [JS.lt JS.zero]; apply Qltb_lt.
  - assert (0 < 2 ^ k)%Z by (apply Z.pow_pos_nonneg; lia).
    unfold Qlt, inject_Z. cbn [Qnum Qden]. nia.
  - rewrite Qred_correct. unfold Qlt. cbn [Qnum Qden]. lia.
Qed.

Lemma round_magnitude_neg (n d : positive) :
  (JS.zero <? JS.round_magnitude true n d)%js = false.
Proof.
  unfold JS.round_magnitude.
  set (k := Z.max (JS.log2_floor n d - 52) (-1074)).
  assert (Hm : (0 <= (if (0 <=? k)%Z
                      then JS.nearest_even (Zpos n) (Zpos d * 2 ^ k)
                      else JS.nearest_even (Zpos n * 2 ^ (- k)) (Zpos d)))%Z).
  { destruct (Z.leb_spec 0 k).
    - assert (0 < 2 ^ k)%Z by (apply Z.pow_pos_nonneg; lia).
      apply nearest_even_nonneg; nia.
    - assert (0 < 2 ^ (- k))%Z by (apply Z.pow_pos_nonneg; lia).
      apply nearest_even_nonneg; nia. }
  set (m := if (0 <=? k)%Z then _ else _) in *.
  destruct (Z.eqb_spec m 0); [reflexivity|].
  destruct (1024 <=? Z.log2 m + k)%Z; [reflexivity|].
  destruct (Z.leb_spec 0 k) as [Hk|Hk]; cbn [JS.lt JS.zero]; apply Qltb_ge.
  - assert (0 < 2 ^ k)%Z by (apply Z.pow_pos_nonneg; lia).
    unfold Qle, inject_Z. cbn [Qnum Qden]. nia.
  - rewrite Qred_correct. unfold Qle. cbn [Qnum Qden]. lia.
Qed.

Lemma round64_sign (q : Q) :
  grid_q q -> (JS.zero <? JS.round64 q)%js = JS.Qltb 0 q.
Proof.
  intros [z Hz]. destruct q as [[|n|n] d]; unfold JS.round64; cbn [Qnum Qden] in *.
  - reflexivity.
  - rewrite round_magnitude_pos; [reflexivity|].
    assert (HG : (0 < 2 ^ 1074)%Z) by (apply Z.pow_pos_nonneg; lia).
    remember (2 ^ 1074)%Z as G eqn:EG. clear EG. rewrite Hz.
    assert (0 < z)%Z by nia. nia.
  - rewrite round_magnitude_neg. reflexivity.
Qed.

Lemma grid_q_sub (x y : Q) : grid_q x -> grid_q y -> grid_q (x + - y).
Proof.
  intros [z1 H1] [z2 H2]. exists (z1 - z2)%Z.
  destruct x as [xn xd], y as [yn yd]. cbn [Qnum Qden Qplus Qopp] in *.
  rewrite Pos2Z.inj_mul. nia.
Qed.

Lemma grid_q_0_r (x : Q) : grid_q x -> grid_q (x + 0).
Proof.
  intros [z1 H1]. exists z1.
  destruct x as [xn xd]. cbn [Qnum Qden Qplus] in *.
  rewrite Pos2Z.inj_mul. nia.
Qed.

Lemma Qis0_false (y : Q) : JS.Qis0 y = false -> ~ (y == 0)%Q.
Proof.
  unfold JS.Qis0, Qeq. intros H E. apply Z.eqb_neq in H. simpl in E. lia.
Qed.

Lemma grid_q_0 : grid_q 0.
Proof. exists 0%Z. reflexivity. Qed.

Lemma add64_finite_sign (s : Q) (nz : bool) :
  grid_q s ->
  (JS.zero <? (if JS.Qis0 s then JS.zero_of nz else JS.round64 s))%js
  = JS.Qltb 0 s.
Proof.
  intro Hg. destruct (JS.Qis0 s) eqn:E.
  - apply Qis0_eq in E.
    assert (JS.Qltb 0 s = false) as -> by (apply Qltb_ge; lra).
    now destruct nz.
  - now apply round64_sign.
Qed.

(** The binary64 difference of two doubles is above 0 exactly when the
    first is above the second. *)
Lemma sub64_sign (a b : jsnum) :
  is_double_value a -> is_double_value b ->
  ((a - b)%f64 >? JS.zero)%js = (a >? b)%js.
Proof.
  pose proof grid_q_0 as H0.
  unfold JS.gt, JS.sub64, JS.add64.
  destruct a as [x| | | |], b as [y| | | |]; cbn [is_double_value];
    intros Ha Hb; cbn [JS.neg];
    try (destruct (JS.Qis0 y) eqn:Ey; [apply Qis0_eq in Ey|]);
    cbn [JS.is_nan JS.is_inf JS.negative JS.value orb andb negb Bool.eqb JS.lt];
    try reflexivity;
    (rewrite add64_finite_sign;
     [q_cases|first [now apply grid_q_0_r|now apply grid_q_sub]]).
Qed.

(** So a sort gives the same array with the binary64 difference as its
    comparison function as with the exact one. *)
Lemma insert_sign_ext {A : Type} (cmp1 cmp2 : A -> A -> jsnum) (x : A)
    (l : list A) :
  (forall y, In y l -> (cmp1 x y >? JS.zero)%js = (cmp2 x y >? JS.zero)%js) ->
  JS.insert cmp1 x l = JS.insert cmp2 x l.
Proof.
  induction l as [|y l IH]; intro H; cbn [JS.insert]; [reflexivity|].
  rewrite (H y) by now left.
  rewrite IH; [reflexivity|]. intros z Hz. apply H. now right.
Qed.

Lemma In_insert {A : Type} (cmp : A -> A -> jsnum) (x y : A) (l : list A) :
  In y (JS.insert cmp x l) -> y = x \/ In y l.
Proof.
  induction l as [|w l IH]; cbn [JS.insert In].
  - intuition congruence.
  - destruct (cmp x w >? JS.zero)%js; cbn [In]; intuition congruence.
Qed.

Lemma In_sort {A : Type} (cmp : A -> A -> jsnum) (y : A) (l : list A) :
  In y (JS.sort cmp l) -> In y l.
Proof.
  induction l as [|z l IH]; [intros []|].
  cbn [JS.sort fold_right]. fold (JS.sort cmp l). intro Hy.
  destruct (In_insert _ _ _ _ Hy) as [->|Hs]; [now left|right; auto].
Qed.

Lemma sort_sign_ext {A : Type} (cmp1 cmp2 : A -> A -> jsnum) (l : list A) :
  (forall x y, In x l -> In y l ->
     (cmp1 x y >? JS.zero)%js = (cmp2 x y >? JS.zero)%js) ->
  JS.sort cmp1 l = JS.sort cmp2 l.
Proof.
  induction l as [|x l IH]; intro H; cbn [JS.sort fold_right]; [reflexivity|].
  fold (JS.sort cmp1 l). fold (JS.sort cmp2 l).
  rewrite IH by (intros; apply H; now right).
  apply insert_sign_ext. intros y Hy. apply H; [now left|right].
  now apply In_sort in Hy.
Qed.

Lemma sort_binary64_difference (l : list jsnum) :
  Forall is_double_value l ->
  JS.sort (fun a b => (a - b)%f64) l = JS.sort (fun a b => (a - b)%js) l
  /\ JS.sort (fun a b => (b - a)%f64) l = JS.sort (fun a b => (b - a)%js) l.
Proof.
  intro H. rewrite Forall_forall in H.
  split; apply sort_sign_ext; intros x y Hx Hy;
    rewrite sub64_sign, sub_gt_zero by auto; reflexivity.
Qed.

Lemma not_above_trans (a b c : jsnum) :
  is_number b -> not_above a b -> not_above b c -> not_above a c.
Proof.
  unfold not_above, is_number, JS.gt.
  destruct a as [x| | | |], b as [y| | | |], c as [z| | | |]; cbn [JS.lt];
    try congruence; intros _ H1 H2; to_Q;
    first [reflexivity|apply Qltb_ge; lra|exfalso; lra].
Qed.

Lemma not_above_total (a b : jsnum) : not_above a b \/ not_above b a.
Proof.
  unfold not_above, JS.gt.
  destruct (b <? a)%js eqn:E; [right; now apply lt_asym|now left].
Qed.

Section SortedHead.
Variable cmp : jsnum -> jsnum -> jsnum.
(** [above a b]: the order the comparison function sorts by. *)
Variable above : jsnum -> jsnum -> bool.
Hypothesis cmp_above : forall a b, (cmp a b >? JS.zero)%js = above a b.
Hypothesis above_trans :
  forall a b c, is_number b ->
    above a b = false -> above b c = false -> above a c = false.
Hypothesis above_total : forall a b, above a b = false \/ above b a = false.

Lemma insert_In (x y : jsnum) (l : list jsnum) :
  In y (JS.insert cmp x l) <-> y = x \/ In y l.
Proof.
  induction l as [|z l IH]; cbn [JS.insert In].
  - intuition congruence.
  - destruct (cmp x z >? JS.zero)%js; cbn [In]; rewrite ?IH;
      intuition congruence.
Qed.

Lemma sort_In (y : jsnum) (l : list jsnum) : In y (JS.sort cmp l) <-> In y l.
Proof.
  induction l as [|x l IH]; simpl; [reflexivity|].
  rewrite insert_In, IH. intuition congruence.
Qed.

Lemma insert_head_first (x : jsnum) (l : list jsnum) :
  is_number x -> Forall is_number l ->
  head_first above l -> head_first above (JS.insert cmp x l).
Proof.
  intros Hx Hl H. destruct l as [|z l]; cbn [JS.insert head_first].
  - intros y [<-|[]]. destruct (above_total x x); assumption.
  - rewrite cmp_above. destruct (above x z) eqn:E.
    + intros y [<-|Hy].
      * apply (H z). now left.
      * apply insert_In in Hy as [->|Hy].
        -- destruct (above_total z x) as [H'|H']; [exact H'|congruence].
        -- apply H. now right.
    + intros y [<-|Hy].
      * destruct (above_total x x); assumption.
      * apply (above_trans x z y); [now inversion Hl|exact E|now apply H].
Qed.

Lemma sort_is_number (l : list jsnum) :
  Forall is_number l -> Forall is_number (JS.sort cmp l).
Proof.
  rewrite !Forall_forall. intros H y Hy. apply H. now apply sort_In.
Qed.

Lemma sort_head_first (l : list jsnum) :
  Forall is_number l -> head_first above (JS.sort cmp l).
Proof.
  induction l as [|x l IH]; intro H; simpl; [exact I|].
  inversion H; subst.
  apply insert_head_first; auto using sort_is_number.
Qed.

Lemma sort_first (l : list jsnum) (m : jsnum) :
  Forall is_number l ->
  nth_error (JS.sort cmp l) 0 = Some m ->
  In m l /\ forall y, In y l -> above m y = false.
Proof.
  intros Hl Hm. pose proof (sort_head_first l Hl) as H.
  assert (Hin : forall y, In y l <-> In y (JS.sort cmp l))
    by (intro y; symmetry; apply sort_In).
  destruct (JS.sort cmp l) as [|m' s]; [discriminate|].
  injection Hm as ->. split.
  - apply Hin. now left.
  - intros y Hy. apply H. now apply Hin.
Qed.

Lemma sort_empty (l : list jsnum) :
  nth_error (JS.sort cmp l) 0 = None <-> l = [].
Proof.
  split; [|now intros ->].
  destruct l as [|x l]; [reflexivity|]. intro H. exfalso.
  assert (Hin : In x (JS.sort cmp (x :: l))) by (apply sort_In; now left).
  destruct (JS.sort cmp (x :: l)); [contradiction|discriminate].
Qed.
End SortedHead.

Lemma gt_is_number (a b : jsnum) : (a >? b)%js = true -> is_number a.
Proof. unfold is_number. intros H ->. destruct b; discriminate. Qed.

Lemma lt_is_number (a b : jsnum) : (a <? b)%js = true -> is_number a.
Proof. unfold is_number. intros H ->. destruct b; discriminate. Qed.

Lemma qualifying_highs (recent50 : list Candle.t) (currentPrice y : jsnum) :
  In y (map Candle.high
          (filter (fun d => (Candle.high d >? currentPrice)%js) recent50))
  <-> exists d, In d recent50 /\ Candle.high d = y
                /\ (Candle.high d >? currentPrice)%js = true.
Proof.
  rewrite in_map_iff. split.
  - intros (d & E & H). apply filter_In in H as [H1 H2]. now exists d.
  - intros (d & H1 & E & H2). exists d. split; [exact E|].
    apply filter_In. now split.
Qed.

Lemma qualifying_lows (recent50 : list Candle.t) (currentPrice y : jsnum) :
  In y (map Candle.low
          (filter (fun d => (Candle.low d <? currentPrice)%js) recent50))
  <-> exists d, In d recent50 /\ Candle.low d = y
                /\ (Candle.low d <? currentPrice)%js = true.
Proof.
  rewrite in_map_iff. split.
  - intros (d & E & H). apply filter_In in H as [H1 H2]. now exists d.
  - intros (d & H1 & E & H2). exists d. split; [exact E|].
    apply filter_In. now split.
Qed.

(** The first resistance level is the lowest high above the price, and
    there is none exactly when no high is above the price. *)
Lemma resistanceLevels_first (recent50 : list Candle.t) (currentPrice : jsnum) :
  match nth_error (resistanceLevels recent50 currentPrice) 0 with
  | Some r =>
    (exists d, In d recent50 /\ Candle.high d = r)
    /\ (r >? currentPrice)%js = true
    /\ forall d, In d recent50 -> (Candle.high d >? currentPrice)%js = true ->
                 (Candle.high d <? r)%js = false
  | None =>
    forall d, In d recent50 -> (Candle.high d >? currentPrice)%js = false
  end.
Proof.
  unfold resistanceLevels.
  set (highs := map Candle.high _).
  assert (Hnum : Forall is_number highs).
  { apply Forall_forall. intros y Hy.
    apply qualifying_highs in Hy as (d & _ & <- & H).
    now apply gt_is_number in H. }
  destruct (nth_error (JS.sort _ highs) 0) as [r|] eqn:E.
  - apply (sort_first _ (fun a b => (a >? b)%js)) in E as [Hin Hmin];
      [|apply sub_gt_zero|apply not_above_trans|apply not_above_total|exact Hnum].
    apply qualifying_highs in Hin as (d & Hd & <- & Hgt).
    repeat apply conj; [now exists d|exact Hgt|].
    intros d' Hd' Hgt'. apply (Hmin (Candle.high d')).
    apply qualifying_highs. now exists d'.
  - apply sort_empty in E. intros d Hd.
    destruct (Candle.high d >? currentPrice)%js eqn:Hgt; [|reflexivity].
    assert (Hin : In (Candle.high d) highs)
      by (apply qualifying_highs; now exists d).
    rewrite E in Hin. contradiction.
Qed.

(** The first support level is the highest low below the price, and there
    is none exactly when no low is below the price. *)
Lemma supportLevels_first (recent50 : list Candle.t) (currentPrice : jsnum) :
  match nth_error (supportLevels recent50 currentPrice) 0 with
  | Some s =>
    (exists d, In d recent50 /\ Candle.low d = s)
    /\ (s <? currentPrice)%js = true
    /\ forall d, In d recent50 -> (Candle.low d <? currentPrice)%js = true ->
                 (s <? Candle.low d)%js = false
  | None =>
    forall d, In d recent50 -> (Candle.low d <? currentPrice)%js = false
  end.
Proof.
  unfold supportLevels.
  set (lows := map Candle.low _).
  assert (Hnum : Forall is_number lows).
  { apply Forall_forall. intros y Hy.
    apply qualifying_lows in Hy as (d & _ & <- & H).
    now apply lt_is_number in H. }
  destruct (nth_error (JS.sort _ lows) 0) as [s|] eqn:E.
  - apply (sort_first _ (fun a b => (a <? b)%js)) in E as [Hin Hmin];
      [|intros a b; apply (sub_gt_zero b a)
       |intros a b c Hb H1 H2; apply (not_above_trans c b a Hb H2 H1)
       |intros a b; destruct (not_above_total a b); [now right|now left]
       |exact Hnum].
    apply qualifying_lows in Hin as (d & Hd & <- & Hlt).
    repeat apply conj; [now exists d|exact Hlt|].
    intros d' Hd' Hlt'. apply (Hmin (Candle.low d')).
    apply qualifying_lows. now exists d'.
  - apply sort_empty in E. intros d Hd.
    destruct (Candle.low d <? currentPrice)%js eqn:Hlt; [|reflexivity].
    assert (Hin : In (Candle.low d) lows)
      by (apply qualifying_lows; now exists d).
    rewrite E in Hin. contradiction.
Qed.

(** [x || null] loses a level exactly when the level is falsy: 0 (NaN is
    never a level). *)
Lemma or_null_level (x : jsnum) :
  or_null (Some x) = None <-> truthy x = false.
Proof.
  unfold or_null. destruct (truthy x); split; congruence.
Qed.

(** C4, at a window with a low of 0: the candle of index 180 has the only
    low below the current price of 100, it is among the last 50, its low 0
    is the first support level, and [analyzeCoin] answers with support
    [null].  On the highs 105, 110, 120 and the lows 90, 95, 98 around a
    price of 100 the levels are 105 and 98. *)
Theorem support_lost_at_zero :
  exists data r dip,
    fetchOHLCV (exchange_of zero_low_rows) "BTC/USDT" default_timeframe
      default_limit = Some data
    /\ fst (analyzeCoin (exchange_of zero_low_rows) stub_ti 0 Bot.new "BTC/USDT")
       = Ok (Some r)
    /\ Analysis.currentPrice r = num 100
    /\ nth_error (JS.slice_last 50 data) 30 = Some dip
    /\ Candle.low dip = num 0
    /\ (Candle.low dip <? Analysis.currentPrice r)%js = true
    /\ nth_error (supportLevels (JS.slice_last 50 data) (num 100)) 0
       = Some (num 0)
    /\ Analysis.support r = None
    /\ or_null (nth_error (resistanceLevels three_candles (num 100)) 0)
       = Some (num 105)
    /\ or_null (nth_error (supportLevels three_candles (num 100)) 0)
       = Some (num 98).
Proof.
  do 3 eexists. repeat apply conj; vm_compute; reflexivity.
Qed.

(** The two levels of a result are the first levels of the last 50
    candles of the fetched window, passed through [|| null]. *)
Lemma analysis_levels (exchange : Exchange) (ti : TI.Lib) (now : Z)
    (this : Bot.t) (symbol : string) (r : Analysis.t) :
  fst (analyzeCoin exchange ti now this symbol) = Ok (Some r) ->
  exists data latest,
    fetchOHLCV exchange symbol default_timeframe default_limit = Some data
    /\ JS.last_elem data = Some latest
    /\ Analysis.currentPrice r = Candle.close latest
    /\ Analysis.support r
       = or_null (nth_error (supportLevels (JS.slice_last 50 data)
                               (Candle.close latest)) 0)
    /\ Analysis.resistance r
       = or_null (nth_error (resistanceLevels (JS.slice_last 50 data)
                               (Candle.close latest)) 0).
Proof.
  cbn [analyzeCoin fst]. intro H.
  destruct (analyzeCoin_body exchange ti now this symbol) as [r'|m] eqn:Hbody;
    [|discriminate].
  injection H as ->.
  apply analyzeCoin_body_inv in Hbody
    as (data & indicators & rsiSignals & bbSignals & volumeSignals & latest
        & Hfetch & _ & _ & _ & _ & _ & Hlast & ->).
  exists data, latest. repeat apply conj; try assumption; reflexivity.
Qed.

(** The levels of a result: a support is the highest low below the price
    among the last 50 candles and a resistance the lowest high above it;
    a side is [null] when no candle qualifies, and also when the nearest
    level is falsy. *)
Lemma analysis_nearest_levels (exchange : Exchange) (ti : TI.Lib) (now : Z)
    (this : Bot.t) (symbol : string) (r : Analysis.t) :
  fst (analyzeCoin exchange ti now this symbol) = Ok (Some r) ->
  exists data,
    fetchOHLCV exchange symbol default_timeframe default_limit = Some data
    /\ match Analysis.support r with
       | Some s =>
         (exists d, In d (JS.slice_last 50 data) /\ Candle.low d = s)
         /\ (s <? Analysis.currentPrice r)%js = true
         /\ forall d, In d (JS.slice_last 50 data) ->
                      (Candle.low d <? Analysis.currentPrice r)%js = true ->
                      (s <? Candle.low d)%js = false
       | None =>
         (forall d, In d (JS.slice_last 50 data) ->
                    (Candle.low d <? Analysis.currentPrice r)%js = false)
         \/ (exists d, In d (JS.slice_last 50 data)
                       /\ (Candle.low d <? Analysis.currentPrice r)%js = true
                       /\ truthy (Candle.low d) = false)
       end
    /\ match Analysis.resistance r with
       | Some h =>
         (exists d, In d (JS.slice_last 50 data) /\ Candle.high d = h)
         /\ (h >? Analysis.currentPrice r)%js = true
         /\ forall d, In d (JS.slice_last 50 data) ->
                      (Candle.high d >? Analysis.currentPrice r)%js = true ->
                      (Candle.high d <? h)%js = false
       | None =>
         (forall d, In d (JS.slice_last 50 data) ->
                    (Candle.high d >? Analysis.currentPrice r)%js = false)
         \/ (exists d, In d (JS.slice_last 50 data)
                       /\ (Candle.high d >? Analysis.currentPrice r)%js = true
                       /\ truthy (Candle.high d) = false)
       end.
Proof.
  intro H.
  destruct (analysis_levels exchange ti now this symbol r H)
    as (data & latest & Hfetch & _ & -> & -> & ->).
  exists data. split; [exact Hfetch|].
  pose proof (supportLevels_first (JS.slice_last 50 data) (Candle.close latest))
    as Hs.
  pose proof (resistanceLevels_first (JS.slice_last 50 data) (Candle.close latest))
    as Hr.
  split.
  - destruct (nth_error (supportLevels _ _) 0) as [s|]; [|now left].
    unfold or_null. destruct (truthy s) eqn:Et; [exact Hs|].
    destruct Hs as ((d & Hd & <-) & Hlt & _).
    right. exists d. auto.
  - destruct (nth_error (resistanceLevels _ _) 0) as [h|]; [|now left].
    unfold or_null. destruct (truthy h) eqn:Et; [exact Hr|].
    destruct Hr as ((d & Hd & <-) & Hgt & _).
    right. exists d. auto.
Qed.

(** ** Runs on concrete inputs *)

Lemma analyzeCoin_no_result_witness :
  throws (exchange_down "BTC/USDT" default_timeframe None default_limit)
  /\ fst (analyzeCoin exchange_down stub_ti 0 Bot.new "BTC/USDT") = Ok None
  /\ fst (analyzeCoin (exchange_of (flat_rows 199 0 (num 100))) stub_ti 0
            Bot.new "BTC/USDT") = Ok None
  /\ fst (analyzeCoin (exchange_of zero_low_rows) throwing_ti 0 Bot.new
            "BTC/USDT") = Ok None.
Proof.
  assert (H : throws (exchange_down "BTC/USDT" default_timeframe None
                        default_limit)) by (eexists; reflexivity).
  split; [exact H|].
  destruct (analyzeCoin_no_result exchange_down stub_ti 0 Bot.new "BTC/USDT")
    as (_ & Hdown & _).
  destruct (analyzeCoin_no_result (exchange_of (flat_rows 199 0 (num 100)))
              stub_ti 0 Bot.new "BTC/USDT") as (_ & _ & Hshort & _).
  destruct (analyzeCoin_no_result (exchange_of zero_low_rows) throwing_ti 0
              Bot.new "BTC/USDT") as (_ & _ & _ & Hind & _).
  split; [exact (Hdown H)|]. split.
  - apply (Hshort (flat_rows 199 0 (num 100))); [reflexivity|].
    unfold flat_rows. rewrite length_map, length_seq. lia.
  - eapply Hind; [reflexivity|]. vm_compute. reflexivity.
Defined.


Lemma macd_strategy_gating_witness :
  ((num 1 >? frac 1 2) && (frac 1 2 >? num 0))%js = true
  /\ types (macdCrossoverStrategy [] (with_macd (num 1) (frac 1 2) (frac 1 2)))
     = ["BUY"].
Proof.
  assert (H : ((num 1 >? frac 1 2) && (frac 1 2 >? num 0))%js = true)
    by reflexivity.
  split; [exact H|].
  destruct (macd_strategy_gating [] (with_macd (num 1) (frac 1 2) (frac 1 2)))
    as ([_ Hbuy] & _).
  exact (Hbuy H).
Defined.

Lemma calculateIndicators_degrades_witness :
  exists snapshot,
    calculateIndicators stub_ti five_candles = Some snapshot
    /\ rsi_series stub_ti five_candles = Ok []
    /\ Indicators.rsi snapshot = num 0.
Proof.
  destruct (calculateIndicators stub_ti five_candles) as [snapshot|] eqn:E;
    [|vm_compute in E; discriminate].
  assert (Hrsi : rsi_series stub_ti five_candles = Ok []) by reflexivity.
  exists snapshot. split; [reflexivity|]. split; [exact Hrsi|].
  destruct (calculateIndicators_degrades stub_ti five_candles) as [_ Hzero].
  destruct (Hzero snapshot E) as (Hdefault & _).
  exact (Hdefault Hrsi).
Defined.

Lemma analysis_deterministic_witness :
  fetchOHLCV (exchange_of zero_low_rows) "BTC/USDT" default_timeframe default_limit
  = fetchOHLCV (single_market "BTC/USDT" zero_low_rows) "BTC/USDT"
      default_timeframe default_limit
  /\ without_timestamp
       (fst (analyzeCoin (exchange_of zero_low_rows) stub_ti 0 Bot.new "BTC/USDT"))
     = without_timestamp
         (fst (analyzeCoin (single_market "BTC/USDT" zero_low_rows) stub_ti
                 86400000 busy_bot "BTC/USDT")).
Proof.
  assert (H : fetchOHLCV (exchange_of zero_low_rows) "BTC/USDT"
                default_timeframe default_limit
              = fetchOHLCV (single_market "BTC/USDT" zero_low_rows) "BTC/USDT"
                  default_timeframe default_limit) by (vm_compute; reflexivity).
  split; [exact H|].
  destruct (analysis_deterministic stub_ti (exchange_of zero_low_rows)
              (single_market "BTC/USDT" zero_low_rows) 0 86400000
              Bot.new busy_bot "BTC/USDT" H) as (Hsame & _).
  exact Hsame.
Defined.

Lemma signals_bounded_witness :
  exists r,
    fst (analyzeCoin (exchange_of zero_low_rows) stub_ti 0 Bot.new "BTC/USDT")
    = Ok (Some r)
    /\ (length (Analysis.signals r) <= 4)%nat
    /\ -12 <= Sentiment.score (Analysis.sentiment r) <= 12.
Proof.
  destruct (fst (analyzeCoin (exchange_of zero_low_rows) stub_ti 0 Bot.new
                   "BTC/USDT")) as [[r|]|m] eqn:E;
    [|vm_compute in E; discriminate|vm_compute in E; discriminate].
  exists r. split; [reflexivity|].
  destruct (signals_bounded (exchange_of zero_low_rows) stub_ti 0 Bot.new
              "BTC/USDT" r E) as (Hlen & Hscore & _).
  split; [exact Hlen|exact Hscore].
Defined.

Lemma watchlist_set_semantics_witness :
  In "ETH/USDT" (Bot.watchlist busy_bot)
  /\ fst (watchlist_add "ETH/USDT" busy_bot) = busy_bot.
Proof.
  assert (H : In "ETH/USDT" (Bot.watchlist busy_bot)) by (right; left; reflexivity).
  split; [exact H|].
  destruct (watchlist_set_semantics "ETH/USDT" busy_bot) as (Hadd & _).
  exact (Hadd H).
Defined.

(** * Further properties *)

(** ** Substrings and the contribution of a signal type *)

Lemma prefix_spec (t s : string) :
  String.prefix t s = true <-> exists after, s = t ++ after.
Proof.
  revert s. induction t as [|c t IH]; intro s.
  - split; [intros _; now exists s|intros _; now destruct s].
  - simpl. destruct s as [|c' s].
    + split; [discriminate|intros [after H]; discriminate].
    + change (prefix (String c t) (String c' s))
        with (if ascii_dec c c' then prefix t s else false).
      destruct (ascii_dec c c') as [->|Hne].
      * rewrite IH. split.
        -- intros [after ->]. now exists after.
        -- intros [after [= ->]]. now exists after.
      * split; [discriminate|intros [after [= -> _]]; contradiction].
Qed.

Lemma includes_spec (s t : string) : JS.includes s t = true <-> mentions s t.
Proof.
  unfold mentions. induction s as [|c s IH].
  - cbn [JS.includes]. rewrite orb_false_r, prefix_spec. split.
    + intros [after H]. now exists "", after.
    + intros (before & after & H). exists after.
      destruct before as [|c before]; [exact H|discriminate].
  - cbn [JS.includes]. rewrite orb_true_iff, prefix_spec, IH. split.
    + intros [[after H]|(before & after & H)].
      * now exists "", after.
      * exists (String c before), after. simpl. now rewrite H.
    + intros (before & after & H). destruct before as [|c' before].
      * left. now exists after.
      * right. injection H as _ H. now exists before, after.
Qed.

Lemma append_assoc (a b c : string) : (a ++ b) ++ c = a ++ b ++ c.
Proof. induction a as [|x a IH]; simpl; [reflexivity|now rewrite IH]. Qed.

Lemma mentions_suffix (s prefix keyword : string) :
  mentions s (prefix ++ keyword) -> mentions s keyword.
Proof.
  intros (before & after & ->). exists (before ++ prefix), after.
  now rewrite !append_assoc.
Qed.

Lemma includes_false (s t : string) : JS.includes s t = false <-> ~ mentions s t.
Proof. rewrite <- includes_spec. symmetry. apply not_true_iff_false. Qed.

(** X1: a signal type counts as bullish (+1 or +3) exactly when it
    mentions BUY or BULLISH, whatever else it mentions; it counts as
    bearish (-1 or -3) exactly when it mentions SELL or BEARISH and
    neither BUY nor BULLISH; it counts 0 exactly when it mentions none of
    the four words. *)
Theorem contribution_sign (type : string) :
  (0 < spec_contribution type <-> mentions type "BUY" \/ mentions type "BULLISH")
  /\ (spec_contribution type < 0
      <-> (mentions type "SELL" \/ mentions type "BEARISH")
          /\ ~ mentions type "BUY" /\ ~ mentions type "BULLISH")
  /\ (spec_contribution type = 0
      <-> ~ mentions type "BUY" /\ ~ mentions type "BULLISH"
          /\ ~ mentions type "SELL" /\ ~ mentions type "BEARISH")
  /\ (forall score signal,
        Signal.type signal = type ->
        score_step score signal = score + spec_contribution type).
Proof.
  assert (Hsb : mentions type "STRONG BUY" -> mentions type "BUY")
    by apply (mentions_suffix type "STRONG ").
  assert (Hss : mentions type "STRONG SELL" -> mentions type "SELL")
    by apply (mentions_suffix type "STRONG ").
  assert (Hstep : forall score signal,
             Signal.type signal = type ->
             score_step score signal = score + spec_contribution type)
    by (intros score signal <-; apply score_step_contribution).
  split; [|split; [|split; [|exact Hstep]]]; clear Hstep;
    unfold spec_contribution;
    destruct (JS.includes type "STRONG BUY") eqn:E1;
    destruct (JS.includes type "BULLISH") eqn:E2;
    destruct (JS.includes type "BUY") eqn:E3;
    destruct (JS.includes type "STRONG SELL") eqn:E4;
    destruct (JS.includes type "BEARISH") eqn:E5;
    destruct (JS.includes type "SELL") eqn:E6;
    cbn [orb];
    repeat match goal with
           | H : JS.includes _ _ = true |- _ => apply includes_spec in H
           | H : JS.includes _ _ = false |- _ => apply includes_false in H
           end;
    split; intro; first [tauto|lia].
Qed.

(** ** The aggregator over lists of signals *)

Lemma spec_score_app (a b : list Signal.t) :
  spec_score (a ++ b) = spec_score a + spec_score b.
Proof.
  unfold spec_score. induction a as [|s a IH]; simpl; [reflexivity|].
  rewrite IH. lia.
Qed.

Lemma spec_score_perm (a b : list Signal.t) :
  Permutation a b -> spec_score a = spec_score b.
Proof.
  unfold spec_score. induction 1; simpl; lia.
Qed.

Lemma analyzeSentiment_of_score (a b : list Signal.t) :
  spec_score a = spec_score b -> analyzeSentiment a = analyzeSentiment b.
Proof.
  intro H. unfold analyzeSentiment. rewrite !fold_score_step, H. reflexivity.
Qed.

(** X2: the sentiment does not depend on the order of the signals: two
    lists that are permutations of each other get the same sentiment.
    For any two lists, the score of the two put together is the sum of
    their scores. *)
Theorem sentiment_order_irrelevant :
  (forall a b : list Signal.t,
      Permutation a b -> analyzeSentiment a = analyzeSentiment b)
  /\ (forall a b : list Signal.t,
        Sentiment.score (analyzeSentiment (a ++ b))
        = Sentiment.score (analyzeSentiment a)
          + Sentiment.score (analyzeSentiment b)).
Proof.
  split.
  - intros a b H. apply analyzeSentiment_of_score, spec_score_perm, H.
  - intros a b. rewrite !analyzeSentiment_score. apply spec_score_app.
Qed.

Lemma sentiment_order_irrelevant_witness :
  Permutation [signal_of "STRONG BUY"; signal_of "SELL"]
    [signal_of "SELL"; signal_of "STRONG BUY"]
  /\ analyzeSentiment [signal_of "STRONG BUY"; signal_of "SELL"]
     = analyzeSentiment [signal_of "SELL"; signal_of "STRONG BUY"]
  /\ Sentiment.score
       (analyzeSentiment ([signal_of "STRONG BUY"] ++ [signal_of "SELL"]))
     = Sentiment.score (analyzeSentiment [signal_of "STRONG BUY"])
       + Sentiment.score (analyzeSentiment [signal_of "SELL"]).
Proof.
  assert (H : Permutation [signal_of "STRONG BUY"; signal_of "SELL"]
                [signal_of "SELL"; signal_of "STRONG BUY"]) by apply perm_swap.
  split; [exact H|]. split.
  - exact (proj1 sentiment_order_irrelevant _ _ H).
  - exact (proj2 sentiment_order_irrelevant _ _).
Defined.

(** ** The Bollinger strategy *)

(** X3: the Bollinger strategy throws exactly on an empty candle list;
    otherwise it reads the close of the last candle only and returns BUY
    exactly when the close is below the lower band, SELL exactly when it
    is not below the lower band and above the upper band, and nothing
    otherwise; a close equal to a band never gives the signal of that
    band. *)
Theorem bollinger_strategy_spec (data : list Candle.t) (latest : Candle.t)
    (indicators : Indicators.t) :
  let price := Candle.close latest in
  let bb := Indicators.bb indicators in
  (throws (bollingerBandsStrategy data indicators) <-> data = [])
  /\ exists signals,
       bollingerBandsStrategy (data ++ [latest]) indicators = Ok signals
       /\ (types signals = ["BUY"] <-> (price <? BB.lower bb)%js = true)
       /\ (types signals = ["SELL"]
           <-> (price <? BB.lower bb)%js = false
               /\ (price >? BB.upper bb)%js = true)
       /\ (signals = []
           <-> (price <? BB.lower bb)%js = false
               /\ (price >? BB.upper bb)%js = false)
       /\ (price = BB.lower bb -> types signals <> ["BUY"])
       /\ (price = BB.upper bb -> types signals <> ["SELL"]).
Proof.
  intros price bb. split.
  - destruct data as [|c data].
    + split; [reflexivity|intros _; apply throws_Throw].
    + destruct (bb_run (c :: data) indicators) as (s & Hs & _); [discriminate|].
      rewrite Hs. split; [intro H; now apply throws_Ok in H|discriminate].
  - unfold bollingerBandsStrategy. rewrite last_elem_app. cbn [defined bind].
    fold price. fold bb.
    pose proof (lt_irrefl price) as Hirr.
    destruct (price <? BB.lower bb)%js eqn:Elow.
    + eexists. split; [reflexivity|]. cbn.
      repeat split; try discriminate; try (intros [? ?]; discriminate).
      intros E _. rewrite <- E in Elow. congruence.
    + destruct (price >? BB.upper bb)%js eqn:Eup.
      * eexists. split; [reflexivity|]. cbn.
        repeat split; try discriminate; try (intros [? ?]; discriminate).
        intros E _. unfold JS.gt in Eup. rewrite <- E in Eup. congruence.
      * eexists. split; [reflexivity|]. cbn.
        repeat split; try discriminate; try (intros [? ?]; discriminate).
Qed.

Lemma bollinger_strategy_spec_witness :
  let latest := bar (num 100) (num 10) in
  let indicators :=
    Indicators.mk (num 50) zero_macd (BB.mk (num 120) (num 110) (num 100))
      (num 0) (num 0) (num 0) (num 0) (num 0) zero_stoch (num 0) in
  Candle.close latest = BB.lower (Indicators.bb indicators)
  /\ exists signals,
       bollingerBandsStrategy [latest] indicators = Ok signals
       /\ types signals <> ["BUY"].
Proof.
  intros latest indicators.
  assert (H : Candle.close latest = BB.lower (Indicators.bb indicators))
    by reflexivity.
  split; [exact H|].
  destruct (bollinger_strategy_spec [] latest indicators)
    as (_ & signals & Hrun & _ & _ & _ & Hlow & _).
  exists signals. split; [exact Hrun|exact (Hlow H)].
Defined.

(** ** The volume strategy *)

Lemma slice_last_exact {A : Type} (n : nat) (prefix window : list A) :
  length window = n -> JS.slice_last n (prefix ++ window) = window.
Proof.
  intro H. unfold JS.slice_last. rewrite length_app, H.
  replace (length prefix + n - n)%nat with (length prefix) by lia.
  rewrite skipn_app, skipn_all, Nat.sub_diag. reflexivity.
Qed.

(** X4: with 21 candles or more the volume strategy reads the last 20
    candles only: two candle lists with the same last 20 candles get the
    same signals, whatever came before. *)
Theorem volume_reads_last_20 (data1 data2 : list Candle.t) :
  (21 <= length data1)%nat -> (21 <= length data2)%nat ->
  JS.slice_last 20 data1 = JS.slice_last 20 data2 ->
  volumeBreakoutStrategy data1 = volumeBreakoutStrategy data2.
Proof.
  intros H1 H2 Hsame.
  destruct (last_two data1 H1)
    as (p1 & w1 & prev1 & cur1 & _ & _ & Hs1 & Hc1 & Hp1).
  destruct (last_two data2 H2)
    as (p2 & w2 & prev2 & cur2 & _ & _ & Hs2 & Hc2 & Hp2).
  rewrite Hs1, Hs2 in Hsame.
  change [prev1; cur1] with ([prev1] ++ [cur1])%list in Hsame.
  change [prev2; cur2] with ([prev2] ++ [cur2])%list in Hsame.
  rewrite !app_assoc in Hsame.
  apply app_inj_tail in Hsame as [Hsame ->].
  apply app_inj_tail in Hsame as [-> ->].
  unfold volumeBreakoutStrategy, avgVolume.
  apply Nat.ltb_ge in H1, H2.
  rewrite H1, H2, Hc1, Hp1, Hc2, Hp2, Hs1, Hs2.
  reflexivity.
Qed.

Lemma volume_reads_last_20_witness :
  (21 <= length (breakout_window (num 103) (num 250)))%nat
  /\ (21 <= length (bar (num 1) (num 900) :: bar (num 2) (num 900)
                    :: breakout_window (num 103) (num 250)))%nat
  /\ volumeBreakoutStrategy (breakout_window (num 103) (num 250))
     = volumeBreakoutStrategy
         (bar (num 1) (num 900) :: bar (num 2) (num 900)
          :: breakout_window (num 103) (num 250)).
Proof.
  assert (H1 : (21 <= length (breakout_window (num 103) (num 250)))%nat)
    by (vm_compute; lia).
  assert (H2 : (21 <= length (bar (num 1) (num 900) :: bar (num 2) (num 900)
                              :: breakout_window (num 103) (num 250)))%nat)
    by (vm_compute; lia).
  split; [exact H1|]. split; [exact H2|].
  apply (volume_reads_last_20 _ _ H1 H2). reflexivity.
Defined.

(** ** The indicator snapshot *)

Lemma or_else_number (x : option jsnum) : is_number (or_else x (num 0)).
Proof.
  unfold or_else, is_number. destruct x as [[q| | | |]|]; cbn; try discriminate.
  destruct (negb (JS.Qis0 q)); discriminate.
Qed.

Lemma or_else_last_scalar (earlier : list jsnum) (x : jsnum) :
  or_else (JS.last_elem (earlier ++ [x])) (num 0)
  = if truthy x then x else num 0.
Proof. now rewrite last_elem_app. Qed.

(** The snapshot in terms of the ten series. *)
Lemma calculateIndicators_inv (ti : TI.Lib) (data : list Candle.t)
    (snapshot : Indicators.t) :
  calculateIndicators ti data = Some snapshot ->
  exists rsi macd bb sma20 sma50 sma200 ema12 ema26 stoch atr,
    rsi_series ti data = Ok rsi /\ macd_series ti data = Ok macd
    /\ bb_series ti data = Ok bb /\ sma_series ti 20 data = Ok sma20
    /\ sma_series ti 50 data = Ok sma50 /\ sma_series ti 200 data = Ok sma200
    /\ ema_series ti 12 data = Ok ema12 /\ ema_series ti 26 data = Ok ema26
    /\ stoch_series ti data = Ok stoch /\ atr_series ti data = Ok atr
    /\ snapshot
       = {| Indicators.rsi := or_else (JS.last_elem rsi) (num 0);
            Indicators.macd := or_else (JS.last_elem macd) zero_macd;
            Indicators.bb := or_else (JS.last_elem bb) zero_bb;
            Indicators.sma20 := or_else (JS.last_elem sma20) (num 0);
            Indicators.sma50 := or_else (JS.last_elem sma50) (num 0);
            Indicators.sma200 := or_else (JS.last_elem sma200) (num 0);
            Indicators.ema12 := or_else (JS.last_elem ema12) (num 0);
            Indicators.ema26 := or_else (JS.last_elem ema26) (num 0);
            Indicators.stoch := or_else (JS.last_elem stoch) zero_stoch;
            Indicators.atr := or_else (JS.last_elem atr) (num 0) |}.
Proof.
  unfold calculateIndicators.
  destruct (rsi_series ti data) as [rsi|]; [|discriminate].
  destruct (macd_series ti data) as [macd|]; [|discriminate].
  destruct (bb_series ti data) as [bb|]; [|discriminate].
  destruct (sma_series ti 20 data) as [sma20|]; [|discriminate].
  destruct (sma_series ti 50 data) as [sma50|]; [|discriminate].
  destruct (sma_series ti 200 data) as [sma200|]; [|discriminate].
  destruct (ema_series ti 12 data) as [ema12|]; [|discriminate].
  destruct (ema_series ti 26 data) as [ema26|]; [|discriminate].
  destruct (stoch_series ti data) as [stoch|]; [|discriminate].
  destruct (atr_series ti data) as [atr|]; [|discriminate].
  cbn [bind try_or_null]. intros [= <-].
  exists rsi, macd, bb, sma20, sma50, sma200, ema12, ema26, stoch, atr.
  repeat split; reflexivity.
Qed.

(** X6: in a snapshot the seven scalar indicators are never NaN: a series
    that ends with 0 or NaN gives 0, as an empty series does, and any
    other last value is kept; the MACD, Bollinger and stochastic records
    are the last records of their series, whatever their fields hold. *)
Theorem snapshot_fields (ti : TI.Lib) (data : list Candle.t)
    (snapshot : Indicators.t) :
  calculateIndicators ti data = Some snapshot ->
  (is_number (Indicators.rsi snapshot) /\ is_number (Indicators.sma20 snapshot)
   /\ is_number (Indicators.sma50 snapshot)
   /\ is_number (Indicators.sma200 snapshot)
   /\ is_number (Indicators.ema12 snapshot)
   /\ is_number (Indicators.ema26 snapshot)
   /\ is_number (Indicators.atr snapshot))
  /\ (scalar_of (rsi_series ti data) (Indicators.rsi snapshot)
      /\ scalar_of (sma_series ti 20 data) (Indicators.sma20 snapshot)
      /\ scalar_of (sma_series ti 50 data) (Indicators.sma50 snapshot)
      /\ scalar_of (sma_series ti 200 data) (Indicators.sma200 snapshot)
      /\ scalar_of (ema_series ti 12 data) (Indicators.ema12 snapshot)
      /\ scalar_of (ema_series ti 26 data) (Indicators.ema26 snapshot)
      /\ scalar_of (atr_series ti data) (Indicators.atr snapshot))
  /\ (record_of (macd_series ti data) (Indicators.macd snapshot)
      /\ record_of (bb_series ti data) (Indicators.bb snapshot)
      /\ record_of (stoch_series ti data) (Indicators.stoch snapshot)).
Proof.
  intro H. apply calculateIndicators_inv in H
    as (rsi & macd & bb & sma20 & sma50 & sma200 & ema12 & ema26 & stoch & atr
        & E1 & E2 & E3 & E4 & E5 & E6 & E7 & E8 & E9 & E10 & ->).
  cbn [Indicators.rsi Indicators.macd Indicators.bb Indicators.sma20
       Indicators.sma50 Indicators.sma200 Indicators.ema12 Indicators.ema26
       Indicators.stoch Indicators.atr].
  split; [repeat split; apply or_else_number|].
  unfold scalar_of, record_of.
  rewrite E1, E2, E3, E4, E5, E6, E7, E8, E9, E10.
  split.
  - repeat split; intros earlier x [= ->]; apply or_else_last_scalar.
  - repeat split; intros earlier x [= ->]; now rewrite last_elem_app.
Qed.

Lemma snapshot_fields_witness :
  exists snapshot,
    calculateIndicators bullish_ti five_candles = Some snapshot
    /\ is_number (Indicators.rsi snapshot)
    /\ Indicators.rsi snapshot = num 10.
Proof.
  destruct (calculateIndicators bullish_ti five_candles) as [snapshot|] eqn:E;
    [|vm_compute in E; discriminate].
  exists snapshot. split; [reflexivity|].
  destruct (snapshot_fields bullish_ti five_candles snapshot E)
    as ((Hnum & _) & (Hrsi & _) & _).
  split; [exact Hnum|].
  exact (Hrsi [] (num 10) eq_refl).
Defined.

(** ** The result of an analysis *)

(** A result and the steps it comes from. *)
Lemma analysis_components (exchange : Exchange) (ti : TI.Lib) (now : Z)
    (this : Bot.t) (symbol : string) (r : Analysis.t) :
  fst (analyzeCoin exchange ti now this symbol) = Ok (Some r) ->
  exists data indicators rsiSignals bbSignals volumeSignals latest,
    fetchOHLCV exchange symbol default_timeframe default_limit = Some data
    /\ (200 <= length data)%nat
    /\ calculateIndicators ti data = Some indicators
    /\ rsiDivergenceStrategy data indicators = Ok rsiSignals
    /\ bollingerBandsStrategy data indicators = Ok bbSignals
    /\ volumeBreakoutStrategy data = Ok volumeSignals
    /\ JS.last_elem data = Some latest
    /\ r = assemble symbol now data indicators latest
             (rsiSignals ++ macdCrossoverStrategy data indicators
              ++ bbSignals ++ volumeSignals)%list.
Proof.
  cbn [analyzeCoin fst]. intro H.
  destruct (analyzeCoin_body exchange ti now this symbol) as [r'|m] eqn:Hbody;
    [|discriminate].
  injection H as ->.
  destruct (analyzeCoin_body_inv _ _ _ _ _ _ Hbody)
    as (data & indicators & _ & _ & _ & _ & Hfetch & Hlen & Hind & _).
  destruct (analyzeCoin_body_runs exchange ti now this symbol data indicators
              Hfetch Hlen Hind)
    as (rsiSignals & bbSignals & volumeSignals & latest
        & Hrsi & _ & Hbb & _ & Hvol & _ & Hlast & Hrun).
  rewrite Hrun in Hbody. injection Hbody as <-.
  exists data, indicators, rsiSignals, bbSignals, volumeSignals, latest.
  repeat apply conj; try assumption; reflexivity.
Qed.

(** X7: a result of [analyzeCoin] names the symbol asked for, comes from
    a window of 200 candles or more, reports the close and the volume of
    the last candle as current price and 24h volume, carries the snapshot
    of the whole window and the clock value, lists the signals in the
    order RSI, MACD, Bollinger, volume, and its sentiment is the
    aggregate of exactly these signals. *)
Theorem analysis_result_fields (exchange : Exchange) (ti : TI.Lib) (now : Z)
    (this : Bot.t) (symbol : string) (r : Analysis.t) (data : list Candle.t) :
  fst (analyzeCoin exchange ti now this symbol) = Ok (Some r) ->
  fetchOHLCV exchange symbol default_timeframe default_limit = Some data ->
  exists latest rsiSignals bbSignals volumeSignals,
    (200 <= length data)%nat
    /\ JS.last_elem data = Some latest
    /\ Analysis.symbol r = symbol
    /\ Analysis.currentPrice r = Candle.close latest
    /\ Analysis.volume24h r = Candle.volume latest
    /\ calculateIndicators ti data = Some (Analysis.indicators r)
    /\ Analysis.timestamp r = now
    /\ rsiDivergenceStrategy data (Analysis.indicators r) = Ok rsiSignals
    /\ bollingerBandsStrategy data (Analysis.indicators r) = Ok bbSignals
    /\ volumeBreakoutStrategy data = Ok volumeSignals
    /\ Analysis.signals r
       = (rsiSignals ++ macdCrossoverStrategy data (Analysis.indicators r)
          ++ bbSignals ++ volumeSignals)%list
    /\ Analysis.sentiment r = analyzeSentiment (Analysis.signals r).
Proof.
  intros H Hfetch.
  apply analysis_components in H
    as (data' & indicators & rsiSignals & bbSignals & volumeSignals & latest
        & Hfetch' & Hlen & Hind & Hrsi & Hbb & Hvol & Hlast & ->).
  rewrite Hfetch in Hfetch'. injection Hfetch' as <-.
  exists latest, rsiSignals, bbSignals, volumeSignals.
  cbn [assemble Analysis.symbol Analysis.currentPrice Analysis.volume24h
       Analysis.indicators Analysis.timestamp Analysis.signals
       Analysis.sentiment].
  repeat apply conj; try assumption; reflexivity.
Qed.

Lemma analysis_result_fields_witness :
  exists r data,
    fst (analyzeCoin (exchange_of breakout_rows) bullish_ti 7 busy_bot "BTC/USDT")
    = Ok (Some r)
    /\ fetchOHLCV (exchange_of breakout_rows) "BTC/USDT" default_timeframe
         default_limit = Some data
    /\ Analysis.symbol r = "BTC/USDT"
    /\ Analysis.timestamp r = 7.
Proof.
  destruct (fst (analyzeCoin (exchange_of breakout_rows) bullish_ti 7 busy_bot
                   "BTC/USDT")) as [[r|]|m] eqn:E;
    [|vm_compute in E; discriminate|vm_compute in E; discriminate].
  destruct (fetchOHLCV (exchange_of breakout_rows) "BTC/USDT" default_timeframe
              default_limit) as [data|] eqn:F; [|vm_compute in F; discriminate].
  exists r, data. split; [reflexivity|]. split; [reflexivity|].
  destruct (analysis_result_fields _ _ _ _ _ r data E F)
    as (latest & rsiSignals & bbSignals & volumeSignals
        & _ & _ & Hsym & _ & _ & _ & Hts & _).
  split; [exact Hsym|exact Hts].
Defined.

Lemma types_app (a b : list Signal.t) : types (a ++ b) = (types a ++ types b)%list.
Proof. apply map_app. Qed.

(** X8: the zero defaults of a snapshot read as market signals.  When the
    RSI series of the window is empty the result starts with a STRONG BUY
    signal (an RSI of 0 is below 25); when the Bollinger series is empty
    and the current price is positive the result has a SELL signal (the
    price is above an upper band of 0); an empty MACD series gives no
    MACD signal. *)
Theorem degraded_defaults_signal (exchange : Exchange) (ti : TI.Lib) (now : Z)
    (this : Bot.t) (symbol : string) (r : Analysis.t) (data : list Candle.t) :
  fst (analyzeCoin exchange ti now this symbol) = Ok (Some r) ->
  fetchOHLCV exchange symbol default_timeframe default_limit = Some data ->
  (rsi_series ti data = Ok [] ->
   exists rest, types (Analysis.signals r) = "STRONG BUY" :: rest)
  /\ (bb_series ti data = Ok [] ->
      (Analysis.currentPrice r >? num 0)%js = true ->
      In "SELL" (types (Analysis.signals r)))
  /\ (macd_series ti data = Ok [] ->
      macdCrossoverStrategy data (Analysis.indicators r) = []).
Proof.
  intros H Hfetch.
  apply analysis_components in H
    as (data' & indicators & rsiSignals & bbSignals & volumeSignals & latest
        & Hfetch' & Hlen & Hind & Hrsi & Hbb & Hvol & Hlast & ->).
  rewrite Hfetch in Hfetch'. injection Hfetch' as <-.
  apply calculateIndicators_inv in Hind
    as (rsi & macd & bb & sma20 & sma50 & sma200 & ema12 & ema26 & stoch & atr
        & E1 & E2 & E3 & _ & _ & _ & _ & _ & _ & _ & Hsnap).
  cbn [assemble Analysis.signals Analysis.currentPrice Analysis.indicators].
  repeat apply conj.
  - intro Hempty. rewrite E1 in Hempty. injection Hempty as ->.
    assert (Hne : data <> []) by (destruct data; [simpl in Hlen; lia|discriminate]).
    destruct (rsi_run data indicators Hne) as (s & Hs & _ & Ht).
    rewrite Hrsi in Hs. injection Hs as <-.
    rewrite Hsnap in Ht. cbn in Ht.
    destruct rsiSignals as [|s1 [|s2 rest]]; try discriminate.
    injection Ht as Ht. rewrite types_app. cbn. rewrite Ht. eauto.
  - intros Hempty Hpos. rewrite E3 in Hempty. injection Hempty as ->.
    unfold bollingerBandsStrategy in Hbb. rewrite Hlast, Hsnap in Hbb.
    cbn [defined bind Indicators.bb or_else JS.last_elem length nth_error
         Nat.sub zero_bb BB.lower BB.upper] in Hbb.
    rewrite (lt_asym _ _ Hpos) in Hbb. unfold JS.gt in Hpos, Hbb.
    rewrite Hpos in Hbb. injection Hbb as <-.
    rewrite !types_app. apply in_or_app. right. apply in_or_app. right.
    apply in_or_app. left. now left.
  - intro Hempty. rewrite E2 in Hempty. injection Hempty as ->.
    rewrite Hsnap. reflexivity.
Qed.

Lemma degraded_defaults_signal_witness :
  exists r data,
    fst (analyzeCoin (exchange_of zero_low_rows) blind_ti 0 Bot.new "BTC/USDT")
    = Ok (Some r)
    /\ fetchOHLCV (exchange_of zero_low_rows) "BTC/USDT" default_timeframe
         default_limit = Some data
    /\ rsi_series blind_ti data = Ok []
    /\ exists rest, types (Analysis.signals r) = "STRONG BUY" :: rest.
Proof.
  destruct (fst (analyzeCoin (exchange_of zero_low_rows) blind_ti 0 Bot.new
                   "BTC/USDT")) as [[r|]|m] eqn:E;
    [|vm_compute in E; discriminate|vm_compute in E; discriminate].
  destruct (fetchOHLCV (exchange_of zero_low_rows) "BTC/USDT" default_timeframe
              default_limit) as [data|] eqn:F; [|vm_compute in F; discriminate].
  exists r, data. split; [reflexivity|]. split; [reflexivity|].
  assert (Hrsi : rsi_series blind_ti data = Ok []) by reflexivity.
  split; [exact Hrsi|].
  exact (proj1 (degraded_defaults_signal _ _ _ _ _ r data E F) Hrsi).
Defined.

(** ** The vocabulary and the range of the score *)

Lemma spec_score_types (signals : list Signal.t) :
  spec_score signals = type_score (types signals).
Proof. unfold spec_score, type_score, types. now rewrite map_map. Qed.

Lemma rsi_types_cases (rsi : jsnum) :
  In (spec_rsi_types rsi)
     [[]; ["STRONG BUY"]; ["BUY"]; ["STRONG SELL"]; ["SELL"]].
Proof.
  unfold spec_rsi_types.
  destruct (_ <? num 25)%js; [simpl; tauto|].
  destruct (_ <? num 35)%js; [simpl; tauto|].
  destruct (_ >? num 75)%js; [simpl; tauto|].
  destruct (_ >? num 65)%js; simpl; tauto.
Qed.

Lemma macd_types_cases (data : list Candle.t) (indicators : Indicators.t) :
  In (types (macdCrossoverStrategy data indicators)) [[]; ["BUY"]; ["SELL"]].
Proof.
  unfold macdCrossoverStrategy.
  destruct (_ && _); [simpl; tauto|].
  destruct (_ && _); simpl; tauto.
Qed.

Lemma bb_types_cases (data : list Candle.t) (indicators : Indicators.t)
    (signals : list Signal.t) :
  bollingerBandsStrategy data indicators = Ok signals ->
  In (types signals) [[]; ["BUY"]; ["SELL"]].
Proof.
  unfold bollingerBandsStrategy.
  destruct (JS.last_elem data) as [latest|]; [|discriminate].
  cbn [defined bind].
  destruct (_ <? _)%js; [intros [= <-]; simpl; tauto|].
  destruct (_ >? _)%js; intros [= <-]; simpl; tauto.
Qed.

Lemma volume_types_cases (data : list Candle.t) (signals : list Signal.t) :
  volumeBreakoutStrategy data = Ok signals ->
  In (types signals) [[]; ["STRONG BUY"]; ["STRONG SELL"]].
Proof.
  unfold volumeBreakoutStrategy.
  destruct (length data <? 21)%nat; [intros [= <-]; simpl; tauto|].
  destruct (nth_error data (length data - 1)) as [current|]; [|discriminate].
  destruct (nth_error data (length data - 2)) as [previous|]; [|discriminate].
  cbn [defined bind].
  destruct (Candle.volume current >? _)%js; [|intros [= <-]; simpl; tauto].
  destruct (_ >? num 2)%js; [intros [= <-]; simpl; tauto|].
  destruct (_ <? num (-2))%js; intros [= <-]; simpl; tauto.
Qed.

(** Case analysis on the membership of a list of types in a short list. *)
Ltac type_cases H :=
  simpl in H;
  repeat (destruct H as [H|H]; [symmetry in H|]); try contradiction.

(** X9: every signal of a result has one of the types STRONG BUY, BUY,
    SELL, STRONG SELL, and the score of a result lies between -8 and 8:
    3 for RSI, 1 for MACD, 1 for Bollinger and 3 for volume at most, in
    either direction.  The bound 8 is reached. *)
Theorem analysis_score_range (exchange : Exchange) (ti : TI.Lib) (now : Z)
    (this : Bot.t) (symbol : string) (r : Analysis.t) :
  fst (analyzeCoin exchange ti now this symbol) = Ok (Some r) ->
  Forall (fun s => In (Signal.type s) signal_types) (Analysis.signals r)
  /\ -8 <= Sentiment.score (Analysis.sentiment r) <= 8
  /\ exists top,
       fst (analyzeCoin (exchange_of breakout_rows) bullish_ti now this symbol)
       = Ok (Some top)
       /\ Analysis.sentiment top = Sentiment.mk "VERY BULLISH" 8.
Proof.
  intro H.
  apply analysis_components in H
    as (data & indicators & rsiSignals & bbSignals & volumeSignals & latest
        & _ & Hlen & _ & Hrsi & Hbb & Hvol & _ & ->).
  assert (Hne : data <> []) by (destruct data; [simpl in Hlen; lia|discriminate]).
  destruct (rsi_run data indicators Hne) as (s & Hs & _ & Ht).
  rewrite Hrsi in Hs. injection Hs as <-.
  pose proof (rsi_types_cases (Indicators.rsi indicators)) as C1.
  rewrite <- Ht in C1.
  pose proof (macd_types_cases data indicators) as C2.
  pose proof (bb_types_cases _ _ _ Hbb) as C3.
  pose proof (volume_types_cases _ _ Hvol) as C4.
  cbn [assemble Analysis.signals Analysis.sentiment].
  repeat apply conj.
  - assert (V : forall l, Forall (fun t => In t signal_types) (types l) ->
                          Forall (fun s => In (Signal.type s) signal_types) l).
    { intros l Hl. unfold types in Hl. now rewrite Forall_map in Hl. }
    assert (K : forall t, In t signal_types ->
                          Forall (fun t => In t signal_types) [t])
      by (intros t Ht'; constructor; [exact Ht'|constructor]).
    apply V. rewrite !types_app.
    apply Forall_app; split; [|apply Forall_app; split; [|apply Forall_app; split]].
    + type_cases C1; rewrite C1;
        first [apply Forall_nil|apply K; simpl; tauto].
    + type_cases C2; rewrite C2;
        first [apply Forall_nil|apply K; simpl; tauto].
    + type_cases C3; rewrite C3;
        first [apply Forall_nil|apply K; simpl; tauto].
    + type_cases C4; rewrite C4;
        first [apply Forall_nil|apply K; simpl; tauto].
  - rewrite analyzeSentiment_score, !spec_score_app, !spec_score_types.
    assert (B1 : -3 <= type_score (types rsiSignals) <= 3)
      by (type_cases C1; rewrite C1; vm_compute; split; discriminate).
    assert (B2 : -1 <= type_score (types (macdCrossoverStrategy data indicators))
                 <= 1)
      by (type_cases C2; rewrite C2; vm_compute; split; discriminate).
    assert (B3 : -1 <= type_score (types bbSignals) <= 1)
      by (type_cases C3; rewrite C3; vm_compute; split; discriminate).
    assert (B4 : -3 <= type_score (types volumeSignals) <= 3)
      by (type_cases C4; rewrite C4; vm_compute; split; discriminate).
    lia.
  - rewrite analyzeSentiment_score, !spec_score_app, !spec_score_types.
    assert (B1 : -3 <= type_score (types rsiSignals) <= 3)
      by (type_cases C1; rewrite C1; vm_compute; split; discriminate).
    assert (B2 : -1 <= type_score (types (macdCrossoverStrategy data indicators))
                 <= 1)
      by (type_cases C2; rewrite C2; vm_compute; split; discriminate).
    assert (B3 : -1 <= type_score (types bbSignals) <= 1)
      by (type_cases C3; rewrite C3; vm_compute; split; discriminate).
    assert (B4 : -3 <= type_score (types volumeSignals) <= 3)
      by (type_cases C4; rewrite C4; vm_compute; split; discriminate).
    lia.
  - cbn [analyzeCoin fst]. unfold analyzeCoin_body.
    eexists. split; [vm_compute; reflexivity|]. vm_compute. reflexivity.
Qed.

Lemma analysis_score_range_witness :
  exists r,
    fst (analyzeCoin (exchange_of zero_low_rows) stub_ti 0 Bot.new "BTC/USDT")
    = Ok (Some r)
    /\ -8 <= Sentiment.score (Analysis.sentiment r) <= 8.
Proof.
  destruct (fst (analyzeCoin (exchange_of zero_low_rows) stub_ti 0 Bot.new
                   "BTC/USDT")) as [[r|]|m] eqn:E;
    [|vm_compute in E; discriminate|vm_compute in E; discriminate].
  exists r. split; [reflexivity|].
  destruct (analysis_score_range _ _ _ _ _ r E) as (_ & Hscore & _).
  exact Hscore.
Defined.

(** ** The levels of a result *)

Lemma last_elem_slice_last {A : Type} (n : nat) (l : list A) :
  (0 < n)%nat -> JS.last_elem (JS.slice_last n l) = JS.last_elem l.
Proof.
  intro Hn. destruct l as [|a l] using rev_ind; [reflexivity|]. clear IHl.
  rewrite last_elem_app. unfold JS.slice_last.
  rewrite length_app. simpl.
  rewrite skipn_app.
  replace (length l + 1 - n - length l)%nat with 0%nat by lia.
  cbn [skipn]. apply last_elem_app.
Qed.

(** X10: a support of a result is a low of one of the last 50 candles,
    below the current price, with no low of these candles between it and
    the price; a resistance is a high of one of them, above the price,
    with no high between the price and it; neither is ever 0 or NaN, and
    a support is below a resistance.  Both depend on the last 50 candles
    alone. *)
Theorem levels_bracket_price (exchange : Exchange) (ti : TI.Lib) (now : Z)
    (this : Bot.t) (symbol : string) (r : Analysis.t) (data : list Candle.t) :
  fst (analyzeCoin exchange ti now this symbol) = Ok (Some r) ->
  fetchOHLCV exchange symbol default_timeframe default_limit = Some data ->
  let recent50 := JS.slice_last 50 data in
  let price := Analysis.currentPrice r in
  (forall s, Analysis.support r = Some s ->
     (s <? price)%js = true /\ truthy s = true
     /\ (exists d, In d recent50 /\ Candle.low d = s)
     /\ forall d, In d recent50 -> (Candle.low d <? price)%js = true ->
                  (s <? Candle.low d)%js = false)
  /\ (forall h, Analysis.resistance r = Some h ->
        (price <? h)%js = true /\ truthy h = true
        /\ (exists d, In d recent50 /\ Candle.high d = h)
        /\ forall d, In d recent50 -> (price <? Candle.high d)%js = true ->
                     (Candle.high d <? h)%js = false)
  /\ (forall s h, Analysis.support r = Some s -> Analysis.resistance r = Some h ->
        (s <? h)%js = true)
  /\ (exists latest,
        JS.last_elem recent50 = Some latest
        /\ price = Candle.close latest
        /\ Analysis.support r
           = or_null (nth_error (supportLevels recent50 (Candle.close latest)) 0)
        /\ Analysis.resistance r
           = or_null (nth_error (resistanceLevels recent50 (Candle.close latest))
                        0)).
Proof.
  intros H Hfetch recent50 price.
  destruct (analysis_levels exchange ti now this symbol r H)
    as (data' & latest & Hfetch' & Hlast & Hprice & Hsup & Hres).
  rewrite Hfetch in Hfetch'. injection Hfetch' as <-.
  fold recent50 in Hsup, Hres. subst price. rewrite Hprice.
  pose proof (supportLevels_first recent50 (Candle.close latest)) as Fs.
  pose proof (resistanceLevels_first recent50 (Candle.close latest)) as Fr.
  assert (Hs : forall s, Analysis.support r = Some s ->
             (s <? Candle.close latest)%js = true /\ truthy s = true
             /\ (exists d, In d recent50 /\ Candle.low d = s)
             /\ forall d, In d recent50 ->
                          (Candle.low d <? Candle.close latest)%js = true ->
                          (s <? Candle.low d)%js = false).
  { intros s Es. rewrite Hsup in Es.
    destruct (nth_error (supportLevels _ _) 0) as [s'|]; [|discriminate].
    unfold or_null in Es. destruct (truthy s') eqn:Et; [|discriminate].
    injection Es as <-. destruct Fs as (F1 & F2 & F3). auto. }
  assert (Hr : forall h, Analysis.resistance r = Some h ->
             (Candle.close latest <? h)%js = true /\ truthy h = true
             /\ (exists d, In d recent50 /\ Candle.high d = h)
             /\ forall d, In d recent50 ->
                          (Candle.close latest <? Candle.high d)%js = true ->
                          (Candle.high d <? h)%js = false).
  { intros h Eh. rewrite Hres in Eh.
    destruct (nth_error (resistanceLevels _ _) 0) as [h'|]; [|discriminate].
    unfold or_null in Eh. destruct (truthy h') eqn:Et; [|discriminate].
    injection Eh as <-. destruct Fr as (F1 & F2 & F3). auto. }
  split; [exact Hs|]. split; [exact Hr|]. split.
  - intros s h Es Eh.
    destruct (Hs s Es) as (L1 & _). destruct (Hr h Eh) as (L2 & _).
    exact (lt_trans _ _ _ L1 L2).
  - exists latest. repeat apply conj; try assumption; try reflexivity.
    unfold recent50. rewrite last_elem_slice_last by lia. exact Hlast.
Qed.

Lemma levels_bracket_price_witness :
  exists r data,
    fst (analyzeCoin (exchange_of breakout_rows) bullish_ti 0 Bot.new "BTC/USDT")
    = Ok (Some r)
    /\ fetchOHLCV (exchange_of breakout_rows) "BTC/USDT" default_timeframe
         default_limit = Some data
    /\ Analysis.support r = Some (num 100)
    /\ (num 100 <? Analysis.currentPrice r)%js = true.
Proof.
  destruct (fst (analyzeCoin (exchange_of breakout_rows) bullish_ti 0 Bot.new
                   "BTC/USDT")) as [[r|]|m] eqn:E;
    [|vm_compute in E; discriminate|vm_compute in E; discriminate].
  destruct (fetchOHLCV (exchange_of breakout_rows) "BTC/USDT" default_timeframe
              default_limit) as [data|] eqn:F; [|vm_compute in F; discriminate].
  exists r, data. split; [reflexivity|]. split; [reflexivity|].
  assert (Hs : Analysis.support r = Some (num 100)).
  { vm_compute in E. injection E as <-. reflexivity. }
  split; [exact Hs|].
  destruct (levels_bracket_price _ _ _ _ _ r data E F) as (Hsup & _).
  exact (proj1 (Hsup (num 100) Hs)).
Defined.

(** ** Fetching candles *)

Lemma quot_cut (n : Z) (d : positive) :
  (Z.abs (Z.quot n (Zpos d)) * Zpos d <= Z.abs n
   < (Z.abs (Z.quot n (Zpos d)) + 1) * Zpos d)%Z
  /\ (0 <= Z.quot n (Zpos d) * n)%Z.
Proof.
  pose proof (Z.quot_rem' n (Zpos d)) as E.
  destruct (Z.le_gt_cases 0 n) as [Hn|Hn].
  - pose proof (Z.rem_bound_pos n (Zpos d) Hn eq_refl) as Hr.
    pose proof (Z.quot_pos n (Zpos d) Hn eq_refl) as Hq.
    rewrite (Z.abs_eq n), (Z.abs_eq (Z.quot n (Zpos d))) by assumption.
    nia.
  - assert (Hr : - Zpos d < Z.rem n (Zpos d) <= 0).
    { pose proof (Z.rem_bound_pos (- n) (Zpos d)) as Hr.
      rewrite Z.rem_opp_l in Hr by discriminate. lia. }
    assert (Hq : (Z.quot n (Zpos d) <= 0)%Z).
    { pose proof (Z.quot_pos (- n) (Zpos d)) as Hq.
      rewrite Z.quot_opp_l in Hq by discriminate. lia. }
    rewrite (Z.abs_neq n), (Z.abs_neq (Z.quot n (Zpos d))) by lia.
    nia.
Qed.

Lemma new_Date_spec (time : jsnum) : date_of time (new_Date time).
Proof.
  destruct time as [x| | | |]; cbn [new_Date]; try constructor.
  unfold JS.Qltb. destruct (Qcompare_spec (inject_Z 8640000000000000) (Qabs x))
    as [H|H|H].
  - constructor; [rewrite H; apply Qle_refl|].
    destruct x as [n d]. destruct (quot_cut n d) as [[H1 H2] H3].
    unfold cut_of, Qle, Qlt. cbn. rewrite !Z.mul_1_r, ?Pos.mul_1_r.
    cbn in *. repeat split; lia.
  - now constructor.
  - constructor; [now apply Qlt_le_weak|].
    destruct x as [n d]. destruct (quot_cut n d) as [[H1 H2] H3].
    unfold cut_of, Qle, Qlt. cbn. rewrite !Z.mul_1_r, ?Pos.mul_1_r.
    cbn in *. repeat split; lia.
Qed.

Lemma new_Date_integer (time : Z) :
  (valid_time time -> new_Date (num time) = Date time)
  /\ (~ valid_time time -> new_Date (num time) = InvalidDate).
Proof.
  unfold new_Date, num, JS.ofZ, JS.Qltb, valid_time, inject_Z, Qcompare.
  cbn [Qabs Qnum Qden]. rewrite !Z.mul_1_r, Z.quot_1_r.
  destruct (Z.compare_spec 8640000000000000 (Z.abs time)); split; intro H';
    try reflexivity; exfalso; lia.
Qed.

Lemma getTime_new_Date (row : ohlcv_row) :
  row_time_valid row ->
  let '(t, _, _, _, _, _) := row in getTime (new_Date t) = t.
Proof.
  destruct row as [[[[[t o] h] l] c] v]. intros (z & Hz & ->).
  now rewrite (proj1 (new_Date_integer z) Hz).
Qed.

(** X11: [fetchOHLCV] returns [null] exactly when the exchange throws;
    otherwise it returns one candle per row, in the order of the rows.
    A candle holds the open, high, low, close and volume of its row
    unchanged, and the date of the row's time: the time without its
    fraction when it is within 8.64e15 ms of the epoch, Invalid Date
    beyond and for NaN and the infinities.  So rows whose times are
    integers within this range can be read back from the candles. *)
Theorem fetchOHLCV_rows (exchange : Exchange) (symbol timeframe : string)
    (limit : Z) :
  (fetchOHLCV exchange symbol timeframe limit = None
   <-> throws (exchange symbol timeframe None limit))
  /\ (forall rows,
        exchange symbol timeframe None limit = Ok rows ->
        exists data,
          fetchOHLCV exchange symbol timeframe limit = Some data
          /\ length data = length rows
          /\ (forall i t o h l c v,
                nth_error rows i = Some (t, o, h, l, c, v) ->
                exists d,
                  nth_error data i = Some d
                  /\ Candle.open d = o /\ Candle.high d = h
                  /\ Candle.low d = l /\ Candle.close d = c
                  /\ Candle.volume d = v
                  /\ date_of t (Candle.timestamp d)
                  /\ (forall z, t = num z -> valid_time z ->
                      Candle.timestamp d = Date z)
                  /\ (forall z, t = num z -> ~ valid_time z ->
                      Candle.timestamp d = InvalidDate))
          /\ (Forall row_time_valid rows -> map row_of data = rows)).
Proof.
  split; [apply fetchOHLCV_null|].
  intros rows Hrows. unfold fetchOHLCV. rewrite Hrows. cbn [bind try_or_null].
  eexists. split; [reflexivity|]. split; [apply length_map|]. split.
  - intros i t o h l c v Hi. rewrite nth_error_map, Hi. cbn [option_map].
    eexists. split; [reflexivity|]. cbn [Candle.open Candle.high Candle.low
      Candle.close Candle.volume Candle.timestamp].
    do 5 (split; [reflexivity|]). split; [apply new_Date_spec|].
    split; intros z -> Hz; now apply new_Date_integer.
  - intro Hvalid. rewrite map_map. rewrite <- (map_id rows) at 2.
    apply map_ext_in. intros row Hin.
    rewrite Forall_forall in Hvalid. specialize (Hvalid _ Hin).
    apply getTime_new_Date in Hvalid.
    destruct row as [[[[[t o] h] l] c] v].
    unfold row_of. cbn [Candle.open Candle.high Candle.low
      Candle.close Candle.volume Candle.timestamp].
    now rewrite Hvalid.
Qed.

Lemma fetchOHLCV_rows_witness :
  exists data d,
    exchange_of edge_rows "BTC/USDT" "1h" None 500 = Ok edge_rows
    /\ fetchOHLCV (exchange_of edge_rows) "BTC/USDT" "1h" 500 = Some data
    /\ ~ valid_time 8640000000000001
    /\ nth_error data 1 = Some d
    /\ Candle.timestamp d = InvalidDate.
Proof.
  assert (H : exchange_of edge_rows "BTC/USDT" "1h" None 500 = Ok edge_rows)
    by reflexivity.
  assert (Hinvalid : ~ valid_time 8640000000000001)
    by (unfold valid_time; lia).
  destruct (proj2 (fetchOHLCV_rows (exchange_of edge_rows) "BTC/USDT" "1h" 500)
              edge_rows H) as (data & Hf & _ & Hrow & _).
  destruct (Hrow 1%nat (num 8640000000000001) (num 1) (num 2) (num 1) (num 2)
              (num 3) eq_refl)
    as (d & Hd & _ & _ & _ & _ & _ & _ & _ & Hdate).
  exists data, d. repeat (split; [assumption|]).
  exact (Hdate _ eq_refl Hinvalid).
Defined.

(** The dates of the four example rows: the epoch, Invalid Date, -1 ms
    (from -1.5 ms) and Invalid Date. *)
Lemma fetchOHLCV_edge_rows :
  option_map (map Candle.timestamp)
    (fetchOHLCV (exchange_of edge_rows) "BTC/USDT" "1h" 500)
  = Some [Date 0; InvalidDate; Date (-1); InvalidDate].
Proof. reflexivity. Qed.

(** ** The watchlist over requests *)

Lemma handle_includes (symbol : string) (bot : Bot.t) (r : request) :
  array_includes (Bot.watchlist (handle bot r)) symbol
  = match r with
    | Add x =>
      if String.eqb x symbol then true
      else array_includes (Bot.watchlist bot) symbol
    | Delete x =>
      if String.eqb x symbol then false
      else array_includes (Bot.watchlist bot) symbol
    end.
Proof.
  apply eq_true_iff_eq. rewrite array_includes_In.
  destruct r as [x|x]; cbn [handle];
    destruct (String.eqb_spec x symbol) as [->|Hne].
  - split; [reflexivity|intros _].
    destruct (in_dec string_dec symbol (Bot.watchlist bot)) as [Hin|Hout].
    + now rewrite add_present.
    + rewrite add_absent by assumption. apply in_or_app. right. now left.
  - rewrite array_includes_In.
    destruct (in_dec string_dec x (Bot.watchlist bot)) as [Hin|Hout].
    + now rewrite add_present.
    + rewrite add_absent by assumption. rewrite in_app_iff. simpl.
      intuition congruence.
  - rewrite delete_In. split; [intros [_ H]; congruence|discriminate].
  - rewrite delete_In, array_includes_In. intuition congruence.
Qed.

Lemma handle_other_fields (bot : Bot.t) (r : request) :
  Bot.portfolio (handle bot r) = Bot.portfolio bot
  /\ Bot.alerts (handle bot r) = Bot.alerts bot.
Proof.
  destruct r as [x|x]; cbn [handle]; [|split; reflexivity].
  unfold watchlist_add. destruct (negb _); split; reflexivity.
Qed.

(** X12: after any sequence of add and delete requests a symbol is on the
    watchlist exactly when the last request about it was an add, or, with
    no request about it, when it was on the watchlist before; the
    portfolio and the alerts never change. *)
Theorem watchlist_last_request_decides (symbol : string)
    (requests : list request) (bot : Bot.t) :
  (In symbol (Bot.watchlist (serve requests bot))
   <-> listed_after symbol requests (array_includes (Bot.watchlist bot) symbol)
       = true)
  /\ Bot.portfolio (serve requests bot) = Bot.portfolio bot
  /\ Bot.alerts (serve requests bot) = Bot.alerts bot.
Proof.
  unfold serve, listed_after. revert bot.
  induction requests as [|r requests IH]; intro bot; cbn [fold_left].
  - split; [symmetry; apply array_includes_In|split; reflexivity].
  - destruct (IH (handle bot r)) as (Hin & Hp & Ha).
    destruct (handle_other_fields bot r) as [Hp' Ha'].
    rewrite Hin, Hp, Ha, Hp', Ha', handle_includes.
    split; [|split; reflexivity].
    destruct r; reflexivity.
Qed.

Lemma watchlist_last_request_decides_witness :
  listed_after "ETH/USDT" [Delete "ETH/USDT"; Add "SOL/USDT"; Add "ETH/USDT"]
    (array_includes (Bot.watchlist busy_bot) "ETH/USDT") = true
  /\ In "ETH/USDT"
       (Bot.watchlist
          (serve [Delete "ETH/USDT"; Add "SOL/USDT"; Add "ETH/USDT"] busy_bot)).
Proof.
  assert (H : listed_after "ETH/USDT"
                [Delete "ETH/USDT"; Add "SOL/USDT"; Add "ETH/USDT"]
                (array_includes (Bot.watchlist busy_bot) "ETH/USDT") = true)
    by reflexivity.
  split; [exact H|].
  exact (proj2 (proj1 (watchlist_last_request_decides "ETH/USDT"
                         [Delete "ETH/USDT"; Add "SOL/USDT"; Add "ETH/USDT"]
                         busy_bot)) H).
Defined.

Lemma filter_absent (symbol : string) (l : list string) :
  ~ In symbol l -> filter (fun s => negb (String.eqb s symbol)) l = l.
Proof.
  induction l as [|x l IH]; intro H; simpl; [reflexivity|].
  destruct (String.eqb_spec x symbol) as [->|Hne].
  - exfalso. apply H. now left.
  - simpl. rewrite IH; [reflexivity|]. intro Hin. apply H. now right.
Qed.

Lemma bot_eta (bot : Bot.t) :
  {| Bot.watchlist := Bot.watchlist bot;
     Bot.portfolio := Bot.portfolio bot;
     Bot.alerts := Bot.alerts bot |} = bot.
Proof. now destruct bot. Qed.

(** X13: adding a symbol that is not on the watchlist puts it at the end,
    deleting it again gives the bot back as it was, and deleting a symbol
    that is not on the watchlist changes nothing. *)
Theorem watchlist_add_delete_round_trip (symbol : string) (bot : Bot.t) :
  ~ In symbol (Bot.watchlist bot) ->
  Bot.watchlist (fst (watchlist_add symbol bot))
  = (Bot.watchlist bot ++ [symbol])%list
  /\ fst (watchlist_delete symbol (fst (watchlist_add symbol bot))) = bot
  /\ fst (watchlist_delete symbol bot) = bot.
Proof.
  intro Hout. split; [now apply add_absent|].
  assert (Hdel : fst (watchlist_delete symbol bot) = bot).
  { cbn. rewrite filter_absent by assumption. apply bot_eta. }
  split; [|exact Hdel].
  unfold watchlist_add.
  destruct (array_includes (Bot.watchlist bot) symbol) eqn:E.
  { apply array_includes_In in E. contradiction. }
  cbn. rewrite filter_app, filter_absent by assumption. simpl.
  rewrite String.eqb_refl. simpl. rewrite app_nil_r. apply bot_eta.
Qed.

Lemma watchlist_add_delete_round_trip_witness :
  ~ In "SOL/USDT" (Bot.watchlist busy_bot)
  /\ fst (watchlist_delete "SOL/USDT" (fst (watchlist_add "SOL/USDT" busy_bot)))
     = busy_bot.
Proof.
  assert (H : ~ In "SOL/USDT" (Bot.watchlist busy_bot)).
  { intros [H|[H|[]]]; discriminate. }
  split; [exact H|].
  exact (proj1 (proj2 (watchlist_add_delete_round_trip "SOL/USDT" busy_bot H))).
Defined.

(** X14: requests about two different symbols do not interfere: deleting
    one and adding the other give the same bot in either order, two
    deletes commute, and deleting twice is deleting once. *)
Theorem watchlist_requests_commute (s t : string) (bot : Bot.t) :
  s <> t ->
  fst (watchlist_delete t (fst (watchlist_add s bot)))
  = fst (watchlist_add s (fst (watchlist_delete t bot)))
  /\ fst (watchlist_delete t (fst (watchlist_delete s bot)))
     = fst (watchlist_delete s (fst (watchlist_delete t bot)))
  /\ fst (watchlist_delete s (fst (watchlist_delete s bot)))
     = fst (watchlist_delete s bot).
Proof.
  intro Hne. repeat apply conj.
  - assert (Hinc : array_includes
                     (filter (fun x => negb (String.eqb x t)) (Bot.watchlist bot)) s
                   = array_includes (Bot.watchlist bot) s).
    { apply eq_true_iff_eq. rewrite !array_includes_In, filter_In, negb_true_iff.
      split; [tauto|]. intro H. split; [exact H|]. now apply String.eqb_neq. }
    unfold watchlist_add. cbn [watchlist_delete fst Bot.watchlist].
    rewrite Hinc.
    destruct (array_includes (Bot.watchlist bot) s); cbn; [reflexivity|].
    rewrite filter_app. simpl.
    apply String.eqb_neq in Hne. rewrite Hne. reflexivity.
  - cbn. f_equal. induction (Bot.watchlist bot) as [|x l IH]; [reflexivity|].
    simpl. destruct (String.eqb x s) eqn:E1, (String.eqb x t) eqn:E2; simpl;
      rewrite ?E1, ?E2; simpl; congruence.
  - cbn. f_equal. induction (Bot.watchlist bot) as [|x l IH]; [reflexivity|].
    simpl. destruct (String.eqb x s) eqn:E1; simpl; rewrite ?E1; simpl; congruence.
Qed.

Lemma watchlist_requests_commute_witness :
  "SOL/USDT" <> "ETH/USDT"
  /\ fst (watchlist_delete "ETH/USDT" (fst (watchlist_add "SOL/USDT" busy_bot)))
     = fst (watchlist_add "SOL/USDT" (fst (watchlist_delete "ETH/USDT" busy_bot))).
Proof.
  assert (H : "SOL/USDT" <> "ETH/USDT") by discriminate.
  split; [exact H|].
  exact (proj1 (watchlist_requests_commute "SOL/USDT" "ETH/USDT" busy_bot H)).
Defined.

(** ** The analysis of the watchlist *)

Lemma can_analyze_answer (exchange : Exchange) (ti : TI.Lib) (now : Z)
    (this : Bot.t) (symbol : string) :
  if can_analyze exchange ti symbol
  then exists r,
         analyzeCoin_body exchange ti now this symbol = Ok r
         /\ Analysis.symbol r = symbol /\ Analysis.timestamp r = now
  else exists m, analyzeCoin_body exchange ti now this symbol = Throw m.
Proof.
  unfold can_analyze.
  destruct (fetchOHLCV exchange symbol default_timeframe default_limit)
    as [data|] eqn:Hfetch.
  - destruct (200 <=? length data)%nat eqn:Hlen.
    + apply Nat.leb_le in Hlen.
      destruct (calculateIndicators ti data) as [indicators|] eqn:Hind;
        cbn [andb].
      * destruct (analyzeCoin_body_runs exchange ti now this symbol data
                    indicators Hfetch Hlen Hind)
          as (? & ? & ? & ? & _ & _ & _ & _ & _ & _ & _ & Hrun).
        eexists. split; [exact Hrun|]. split; reflexivity.
      * unfold analyzeCoin_body. rewrite Hfetch, Hind.
        apply Nat.ltb_ge in Hlen. rewrite Hlen. eauto.
    + apply Nat.leb_gt in Hlen. apply Nat.ltb_lt in Hlen.
      unfold analyzeCoin_body. rewrite Hfetch, Hlen. cbn [andb]. eauto.
  - unfold analyzeCoin_body. rewrite Hfetch. eauto.
Qed.

Lemma watchlist_loop_spec (exchange : Exchange) (ti : TI.Lib) (clock : nat -> Z)
    (this : Bot.t) (symbols : list string) (reads : nat)
    (watchlistData : list Analysis.t) :
  exists results,
    watchlist_loop exchange ti clock symbols this reads watchlistData
    = Ok (watchlistData ++ results)%list
    /\ map Analysis.symbol results = filter (can_analyze exchange ti) symbols
    /\ map Analysis.timestamp results = map clock (seq reads (length results))
    /\ Forall (fun a =>
                 fst (analyzeCoin exchange ti (Analysis.timestamp a) this
                        (Analysis.symbol a)) = Ok (Some a)) results.
Proof.
  revert reads watchlistData.
  induction symbols as [|symbol rest IH]; intros reads watchlistData.
  - exists []. cbn. rewrite app_nil_r. repeat split. constructor.
  - cbn [watchlist_loop analyzeCoin filter].
    pose proof (can_analyze_answer exchange ti (clock reads) this symbol) as Hc.
    destruct (can_analyze exchange ti symbol).
    + destruct Hc as (r & Hr & Hsym & Hts). rewrite Hr.
      cbn [try_or_null bind try_catch fst snd].
      destruct (IH (S reads) (watchlistData ++ [r])%list)
        as (results & Hloop & Hsyms & Htimes & Hall).
      exists (r :: results). repeat apply conj.
      * rewrite Hloop, <- app_assoc. reflexivity.
      * cbn. now rewrite Hsym, Hsyms.
      * cbn. now rewrite Hts, Htimes.
      * constructor; [|exact Hall].
        cbn [analyzeCoin fst]. rewrite Hsym, Hts, Hr. reflexivity.
    + destruct Hc as (m & Hm). rewrite Hm.
      cbn [try_or_null bind try_catch fst snd]. apply IH.
Qed.

(** X15: the watchlist analysis, run on its own, never answers with
    status 500 and leaves the bot as it was.  Its results are, in the
    order of the watchlist, one per symbol whose analysis gives a result:
    a symbol that fails is left out and the symbols after it are still
    analysed.  Each result is the one [analyzeCoin] gives for its symbol
    at its timestamp, and the timestamps are the successive clock
    values. *)
Theorem watchlist_analysis_spec (exchange : Exchange) (ti : TI.Lib)
    (clock : nat -> Z) (bot : Bot.t) :
  exists results,
    api_watchlist_analysis exchange ti clock bot = (Json results, bot)
    /\ map Analysis.symbol results
       = filter (can_analyze exchange ti) (Bot.watchlist bot)
    /\ map Analysis.timestamp results = map clock (seq 0 (length results))
    /\ Forall (fun a =>
                 fst (analyzeCoin exchange ti (Analysis.timestamp a) bot
                        (Analysis.symbol a)) = Ok (Some a)) results
    /\ (forall symbol,
          can_analyze exchange ti symbol = true
          <-> exists r, fst (analyzeCoin exchange ti 0 bot symbol) = Ok (Some r)).
Proof.
  destruct (watchlist_loop_spec exchange ti clock bot (Bot.watchlist bot) 0 [])
    as (results & Hloop & Hsyms & Htimes & Hall).
  exists results. unfold api_watchlist_analysis. rewrite Hloop. cbn [app].
  repeat apply conj; try assumption; try reflexivity.
  intro symbol.
  pose proof (can_analyze_answer exchange ti 0 bot symbol) as Hc.
  split.
  - intro Hcan. rewrite Hcan in Hc. destruct Hc as (r & Hr & _).
    exists r. cbn [analyzeCoin fst]. now rewrite Hr.
  - intros (r & Hr).
    destruct (can_analyze exchange ti symbol); [reflexivity|].
    destruct Hc as (m & Hm). cbn [analyzeCoin fst] in Hr.
    rewrite Hm in Hr. discriminate.
Qed.

Lemma watchlist_analysis_spec_witness :
  exists results,
    api_watchlist_analysis (single_market "ETH/USDT" zero_low_rows) stub_ti
      (fun n => Z.of_nat n) busy_bot = (Json results, busy_bot)
    /\ map Analysis.symbol results = ["ETH/USDT"].
Proof.
  destruct (watchlist_analysis_spec (single_market "ETH/USDT" zero_low_rows)
              stub_ti (fun n => Z.of_nat n) busy_bot)
    as (results & Hrun & Hsyms & _).
  exists results. split; [exact Hrun|].
  rewrite Hsyms. vm_compute. reflexivity.
Defined.

(** ** The top performers *)

Section SortedBy.
Context {A : Type}.
Variable cmp : A -> A -> jsnum.
(** [before a b]: the sort may leave [a] before [b]. *)
Variable before : A -> A -> Prop.
Hypothesis cmp_before : forall a b, (cmp a b >? JS.zero)%js = false <-> before a b.
Hypothesis before_trans : forall a b c, before a b -> before b c -> before a c.
Hypothesis before_total : forall a b, before a b \/ before b a.

Lemma insert_In_gen (x y : A) (l : list A) :
  In y (JS.insert cmp x l) <-> y = x \/ In y l.
Proof.
  induction l as [|z l IH]; cbn [JS.insert In].
  - intuition congruence.
  - destruct (cmp x z >? JS.zero)%js; cbn [In]; rewrite ?IH;
      intuition congruence.
Qed.

Lemma sort_In_gen (y : A) (l : list A) : In y (JS.sort cmp l) <-> In y l.
Proof.
  induction l as [|x l IH]; simpl; [reflexivity|].
  rewrite insert_In_gen, IH. intuition congruence.
Qed.

Lemma insert_sorted (x : A) (l : list A) :
  StronglySorted before l -> StronglySorted before (JS.insert cmp x l).
Proof.
  induction 1 as [|z l Hl IH Hz]; cbn [JS.insert].
  - repeat constructor.
  - destruct (cmp x z >? JS.zero)%js eqn:E.
    + constructor; [exact IH|].
      apply Forall_forall. intros y Hy.
      apply insert_In_gen in Hy as [->|Hy].
      * destruct (before_total z x) as [H|H]; [exact H|].
        apply cmp_before in H. congruence.
      * rewrite Forall_forall in Hz. now apply Hz.
    + apply cmp_before in E.
      constructor; [now constructor|].
      constructor; [exact E|].
      apply Forall_forall. intros y Hy. rewrite Forall_forall in Hz.
      apply (before_trans x z y E). now apply Hz.
Qed.

Lemma sort_sorted (l : list A) : StronglySorted before (JS.sort cmp l).
Proof.
  induction l as [|x l IH]; simpl; [constructor|now apply insert_sorted].
Qed.
End SortedBy.

Lemma sorted_firstn {A : Type} (R : A -> A -> Prop) (n : nat) (l : list A) :
  StronglySorted R l ->
  StronglySorted R (firstn n l)
  /\ forall a b, In a (firstn n l) -> In b (skipn n l) -> R a b.
Proof.
  intro H. rewrite <- (firstn_skipn n l) in H.
  split.
  - clear -H. induction (firstn n l) as [|a f IH]; [constructor|].
    simpl in H. inversion H as [|? ? Hs Hf]; subst.
    constructor; [now apply IH|].
    apply Forall_app in Hf. apply Hf.
  - intros a b Ha Hb. revert Ha. clear -H Hb.
    induction (firstn n l) as [|x f IH]; [intros []|].
    simpl in H. inversion H as [|? ? Hs Hf]; subst.
    intros [->|Ha]; [|now apply IH].
    rewrite Forall_forall in Hf. apply Hf. apply in_or_app. now right.
Qed.

Lemma rank_key (p : Performer.t) :
  to_number (val_or (Performer.change24h p) (Number (num 0))) = rank p.
Proof.
  unfold rank, val_or. destruct (Performer.change24h p) as [| |x]; try reflexivity.
  change (truthy (Number x)) with (truthy x). destruct (truthy x); reflexivity.
Qed.

Lemma rank_is_number (p : Performer.t) : is_number (rank p).
Proof.
  unfold rank, is_number.
  destruct (Performer.change24h p) as [| |[q| | | |]]; cbn; try discriminate.
  destruct (negb (JS.Qis0 q)); discriminate.
Qed.

Lemma by_change_desc_before (a b : Performer.t) :
  (by_change_desc a b >? JS.zero)%js = false <-> (rank a <? rank b)%js = false.
Proof.
  unfold by_change_desc. rewrite !rank_key, sub_gt_zero. reflexivity.
Qed.

Lemma listed_usdt_pair (entry : string * Ticker.t) :
  (let '(symbol, data) := entry in
   JS.includes symbol "/USDT" && not_null (Ticker.percentage data)) = true
  <-> usdt_pair entry.
Proof.
  destruct entry as [symbol data]. unfold usdt_pair. cbn [fst snd].
  rewrite andb_true_iff, includes_spec.
  destruct (Ticker.percentage data); cbn; intuition congruence.
Qed.

Lemma listed_performer (entry : string * Ticker.t) :
  (let '(symbol, data) := entry in
   {| Performer.symbol := symbol;
      Performer.price := Ticker.last data;
      Performer.change24h := Ticker.percentage data;
      Performer.volume24h := val_or (Ticker.baseVolume data) (Number (num 0)) |})
  = performer_of entry.
Proof.
  destruct entry as [symbol data]. unfold performer_of, val_or. cbn [fst snd].
  f_equal. destruct (Ticker.baseVolume data) as [| |x]; reflexivity.
Qed.

(** X16: [getTopPerformers] never throws and returns at most 20 entries;
    when the exchange throws it returns none.  The entries are tickers
    whose symbol mentions /USDT and whose percentage is not [null], in
    descending order of their 24h change (a missing change, 0 and NaN
    ranking as 0); a listed pair that is left out ranks no higher than
    any entry, and with fewer than 20 entries no listed pair is left
    out. *)
Theorem top_performers_spec (fetchTickers : Tickers) :
  exists top,
    getTopPerformers fetchTickers = Ok top
    /\ (length top <= 20)%nat
    /\ (throws fetchTickers -> top = [])
    /\ (forall tickers, fetchTickers = Ok tickers ->
          (forall p, In p top ->
             exists entry,
               In entry tickers /\ usdt_pair entry /\ p = performer_of entry)
          /\ StronglySorted (fun a b => (rank a <? rank b)%js = false) top
          /\ (forall entry, In entry tickers -> usdt_pair entry ->
                In (performer_of entry) top
                \/ forall p, In p top ->
                             (rank p <? rank (performer_of entry))%js = false)
          /\ (forall entry, In entry tickers -> usdt_pair entry ->
                (length top < 20)%nat -> In (performer_of entry) top)).
Proof.
  unfold getTopPerformers.
  destruct fetchTickers as [tickers|m]; cbn [bind try_catch].
  2:{ exists []. repeat apply conj; simpl; try lia; try reflexivity.
      intros tickers [=]. }
  set (pairs := map _ (filter _ tickers)).
  set (sorted := JS.sort by_change_desc pairs).
  assert (Hpairs : forall p, In p pairs <->
            exists entry,
              In entry tickers /\ usdt_pair entry /\ p = performer_of entry).
  { intro p. unfold pairs. rewrite in_map_iff. split.
    - intros (entry & <- & Hin). apply filter_In in Hin as [Hin Hok].
      apply listed_usdt_pair in Hok.
      exists entry. rewrite listed_performer. auto.
    - intros (entry & Hin & Hok & ->). exists entry.
      split; [apply listed_performer|].
      apply filter_In. split; [exact Hin|now apply listed_usdt_pair]. }
  assert (Hsorted : StronglySorted (fun a b => (rank a <? rank b)%js = false)
                      sorted).
  { apply sort_sorted.
    - apply by_change_desc_before.
    - intros a b c H1 H2.
      apply (not_above_trans (rank c) (rank b) (rank a));
        [apply rank_is_number|exact H2|exact H1].
    - intros a b. destruct (not_above_total (rank a) (rank b)); [now right|now left]. }
  assert (Hin : forall p, In p sorted <-> In p pairs)
    by (intro p; apply sort_In_gen).
  destruct (sorted_firstn _ 20 sorted Hsorted) as [Htop Hrest].
  exists (firstn 20 sorted). split; [reflexivity|].
  split; [apply firstn_le_length|].
  split; [intro H; now apply throws_Ok in H|].
  intros tickers' [= <-]. repeat apply conj.
  - intros p Hp. apply Hpairs, Hin.
    rewrite <- (firstn_skipn 20 sorted). apply in_or_app. now left.
  - exact Htop.
  - intros entry Hentry Hok.
    assert (Hp : In (performer_of entry) sorted)
      by (apply Hin, Hpairs; now exists entry).
    rewrite <- (firstn_skipn 20 sorted) in Hp.
    apply in_app_or in Hp as [Hp|Hp]; [now left|right].
    intros p Hp'. now apply Hrest.
  - intros entry Hentry Hok Hshort.
    assert (Hp : In (performer_of entry) sorted)
      by (apply Hin, Hpairs; now exists entry).
    rewrite firstn_all2; [exact Hp|].
    rewrite length_firstn in Hshort. lia.
Qed.

Lemma top_performers_spec_witness :
  exists top,
    getTopPerformers (Ok example_tickers) = Ok top
    /\ map Performer.symbol top = ["BTC/USDT"; "SOL/USDT"; "XRP/USDT"]
    /\ StronglySorted (fun a b => (rank a <? rank b)%js = false) top.
Proof.
  destruct (top_performers_spec (Ok example_tickers))
    as (top & Hrun & _ & _ & Hspec).
  exists top. split; [exact Hrun|].
  destruct (Hspec example_tickers eq_refl) as (_ & Hsorted & _).
  split; [|exact Hsorted].
  vm_compute in Hrun. injection Hrun as <-. reflexivity.
Defined.
